(** * Comment Extractor: the extraction core of [comment_extractor.py]

    A shallow embedding of the class [CommentExtractor]: the Reddit tree
    walk ([extract_reddit_comments] with its nested [parse_comment]), the
    heuristic HTML extractor ([extract_generic_comments]) and the dispatcher
    ([extract_comments]), followed by the properties the specification
    states about them.

    Conventions of the embedding.
    - A decoded JSON payload is a value of [json]; a Python [dict] is an
      association list read from the left (the decoder has already resolved
      duplicate keys), a Python [str] is a [string] with one character per
      code point.
    - A Python exception is a value of [exn]; an expression that may raise
      has type [exn + A] ([inl] raises, [inr] returns).
    - The list [comments] that [parse_comment] appends to is threaded
      explicitly; a run ends [Done] or [Raised], and in both cases carries
      the list as it is at that moment.
    - Library calls whose result the program only passes on
      ([datetime.fromtimestamp], [str()] inside an f-string, the
      BeautifulSoup selection functions, [urlparse]) are the fields of the
      class [Library].
    - The network and the wall clock are arguments of the entry points.
    - The interpreter's recursion limit is not modelled: [parse_comment]
      recurses as deep as the payload nests. *)

From Stdlib Require Import String Ascii List ZArith Lia Bool Arith.
From Stdlib Require Import Floats.SpecFloat.
From Stdlib Require Import Numbers.DecimalString Numbers.DecimalNat.
Import ListNotations.

#[local] Open Scope string_scope.
#[local] Open Scope list_scope.
#[local] Open Scope nat_scope.

(* ================================================================== *)
(** * Python values                                                    *)
(* ================================================================== *)

#[local] Unset Elimination Schemes.

(** What [response.json()] returns. *)
Inductive json : Type :=
| JNull
| JBool (b : bool)
| JInt (n : Z)
| JFloat (f : spec_float)
| JStr (s : string)
| JList (l : list json)
| JDict (m : list (string * json)).

#[local] Set Elimination Schemes.

(** The exceptions the extraction code can meet; all of them derive from
    [Exception], which is what the two [try] blocks catch. *)
Inductive exn : Type :=
| KeyError (key : string)
| TypeError
| AttributeError
| ValueError
| OverflowError
| OSError
| RequestException
| HTTPError (status : nat)
| JSONDecodeError.

(** A call to [st.error]: the fixed prefix and the exception whose [str]
    is appended to it. *)
Inductive message : Type :=
| st_error (prefix : string) (e : exn).

Fixpoint json_size (j : json) : nat :=
  match j with
  | JList l => S (list_sum (map json_size l))
  | JDict m => S (list_sum (map (fun kv => json_size (snd kv)) m))
  | _ => 1
  end.

(** [bool(x)] *)
Definition truthy (j : json) : bool :=
  match j with
  | JNull => false
  | JBool b => b
  | JInt n => negb (Z.eqb n 0)
  | JFloat (S754_zero _) => false
  | JFloat _ => true
  | JStr s => negb (String.eqb s "")
  | JList l => match l with [] => false | _ => true end
  | JDict m => match m with [] => false | _ => true end
  end.

(** [isinstance(x, dict)] and [isinstance(x, list)] *)
Definition is_dict (j : json) : bool :=
  match j with JDict _ => true | _ => false end.

Definition is_list (j : json) : bool :=
  match j with JList _ => true | _ => false end.

(** [x == s] for a string literal [s] *)
Definition eq_str (j : json) (s : string) : bool :=
  match j with JStr s' => String.eqb s' s | _ => false end.

(** Lookup in a dict. *)
Fixpoint assoc (key : string) (m : list (string * json)) : option json :=
  match m with
  | [] => None
  | (k, v) :: m' => if String.eqb k key then Some v else assoc key m'
  end.

(** [d.get(key, default)] on a dict *)
Definition dict_get (m : list (string * json)) (key : string) (default : json) : json :=
  match assoc key m with Some v => v | None => default end.

(** [obj[key]] for a string key: a dict looks the key up, every other
    value raises [TypeError] (indices of a list or a string must be
    integers, the scalars are not subscriptable). *)
Definition getitem (obj : json) (key : string) : exn + json :=
  match obj with
  | JDict m => match assoc key m with
               | Some v => inr v
               | None => inl (KeyError key)
               end
  | _ => inl TypeError
  end.

(** The same two operations in continuation-passing form: the value found
    is handed to [found]. Written with the continuation outside the
    recursion, they let [parse_comment] below recurse structurally into
    the values it reads out of the payload. *)
Section Continuations.
Context {R : Type} (key : string) (found : json -> R) (missing : R).

Fixpoint assoc_k (m : list (string * json)) : R :=
  match m with
  | [] => missing
  | (k, v) :: m' => if String.eqb k key then found v else assoc_k m'
  end.
End Continuations.

Definition getitem_k {R : Type} (obj : json) (key : string)
    (found : json -> R) (raise : exn -> R) : R :=
  match obj with
  | JDict m => assoc_k key found (raise (KeyError key)) m
  | _ => raise TypeError
  end.

(* ================================================================== *)
(** * Strings                                                          *)
(* ================================================================== *)

(** [s[:n]] *)
Definition slice_to (n : nat) (s : string) : string := substring 0 n s.

(** [s.endswith(suffix)] *)
Definition endswith (s suffix : string) : bool :=
  let n := String.length s in
  let k := String.length suffix in
  (k <=? n) && String.eqb (substring (n - k) k s) suffix.

(** [s.rstrip(c)] for a single character [c] *)
Fixpoint rstrip (c : ascii) (s : string) : string :=
  match s with
  | EmptyString => EmptyString
  | String a s' =>
      match rstrip c s' with
      | EmptyString => if Ascii.eqb a c then EmptyString else String a EmptyString
      | r => String a r
      end
  end.

(** [sub in s] *)
Fixpoint contains (sub s : string) : bool :=
  String.prefix sub s ||
  match s with
  | EmptyString => false
  | String _ s' => contains sub s'
  end.

(** [s.lower()] on the ASCII letters *)
Definition lower_ascii (a : ascii) : ascii :=
  let n := nat_of_ascii a in
  if (65 <=? n) && (n <=? 90) then ascii_of_nat (n + 32) else a.

Fixpoint lower (s : string) : string :=
  match s with
  | EmptyString => EmptyString
  | String a s' => String (lower_ascii a) (lower s')
  end.

(** [str(i)] for a non-negative integer *)
Definition str_of_nat (i : nat) : string := NilZero.string_of_uint (Nat.to_uint i).

(* ================================================================== *)
(** * Library functions and the outside world                          *)
(* ================================================================== *)

(** The library calls of the extraction code. [inl] is a raised
    exception. *)
Class Library : Type := {
  (** the type of [datetime] objects *)
  datetime : Type;
  (** [datetime.fromtimestamp(x)]: raises on a value that is not a number
      and on a number outside the platform's range *)
  fromtimestamp : json -> exn + datetime;
  (** [str(x)], as an f-string applies it to a value that is not a [str] *)
  format_value : json -> string;
  (** the bytes of a response body, and the parsed document *)
  document : Type;
  soup : Type;
  element : Type;
  (** [BeautifulSoup(content, 'html.parser')] *)
  BeautifulSoup : document -> soup;
  (** [soup.select(selector)] *)
  select : soup -> string -> list element;
  (** [element.get_text(strip=True)] *)
  get_text : element -> string;
  (** [urlparse(url).netloc] *)
  netloc : string -> string
}.

Section Extractor.
Context {lib : Library}.

(** What [session.get] hands back: the status line, the outcome of
    [response.json()] and the raw body. *)
Record response : Type := {
  status_code : nat;
  json_body : exn + json;
  content : document
}.

(** [response.raise_for_status()] *)
Definition raise_for_status (r : response) : exn + unit :=
  if (400 <=? status_code r) && (status_code r <? 600)
  then inl (HTTPError (status_code r))
  else inr tt.

(** The record dict. The Reddit walk sets [permalink], the generic
    extractor sets [source]; [None] is a key the dict does not have. *)
Record comment : Type := {
  author : json;
  text : json;
  score : json;
  created_utc : datetime;
  depth : nat;
  id : json;
  permalink : option string;
  source : option string
}.

(** How a run of statements that append to [comments] ends. *)
Inductive run : Type :=
| Done (comments : list comment)
| Raised (e : exn) (comments : list comment).

(** [for x in l: body(x)] over the items of a list *)
Section Loop.
Context (body : json -> list comment -> run).

Fixpoint for_each (l : list json) (comments : list comment) : run :=
  match l with
  | [] => Done comments
  | x :: l' =>
      match body x comments with
      | Done comments' => for_each l' comments'
      | Raised e comments' => Raised e comments'
      end
  end.
End Loop.

Definition characters (s : string) : list json :=
  map (fun a => JStr (String a EmptyString)) (list_ascii_of_string s).

(** [for x in iterable: body(x)]: a list yields its items, a string its
    characters, a dict its keys; the other values are not iterable. *)
Definition for_in (iterable : json) (body : json -> list comment -> run)
    (comments : list comment) : run :=
  match iterable with
  | JList l => for_each body l comments
  | JStr s => for_each body (characters s) comments
  | JDict m => for_each body (map (fun kv => JStr (fst kv)) m) comments
  | _ => Raised TypeError comments
  end.

(* ================================================================ *)
(** * The Reddit tree walk                                           *)
(* ================================================================ *)

(** [f"{x}"] *)
Definition fstring (x : json) : string :=
  match x with JStr s => s | _ => format_value x end.

(** The dict literal of [parse_comment], for a [comment_data] that is a
    dict. Of its entries only [datetime.fromtimestamp] can raise. *)
Definition new_comment (comment_data : list (string * json)) (depth : nat)
    : exn + comment :=
  match fromtimestamp (dict_get comment_data "created_utc" (JInt 0)) with
  | inl e => inl e
  | inr created =>
      inr {| author := dict_get comment_data "author" (JStr "[deleted]");
             text := dict_get comment_data "body" (JStr "[deleted]");
             score := dict_get comment_data "score" (JInt 0);
             created_utc := created;
             depth := depth;
             id := dict_get comment_data "id" (JStr "");
             permalink :=
               Some ("https://reddit.com"
                     ++ fstring (dict_get comment_data "permalink" (JStr "")))%string;
             source := None |}
  end.

(** [parse_comment(comment_obj, depth)], appending to [comments].
    A [comment_data] that is not a dict has no [get] method: the first
    entry of the dict literal raises [AttributeError]. A [children] that
    is a string or a dict is iterated too, and the call on its first
    item, a string, raises [TypeError]; [parse_comment_eq] states the body
    with the recursive call in that loop as well. *)
Fixpoint parse_comment (comment_obj : json) (depth : nat)
    (comments : list comment) {struct comment_obj} : run :=
  getitem_k comment_obj "kind" (fun kind =>
    if eq_str kind "t1" then
      getitem_k comment_obj "data" (fun comment_data =>
        match comment_data with
        | JDict d =>
            match new_comment d depth with
            | inl e => Raised e comments
            | inr c =>
                let comments := comments ++ [c] in
                assoc_k "replies" (fun replies =>
                  if truthy replies then
                    if is_dict replies then
                      getitem_k replies "data" (fun listing =>
                        getitem_k listing "children" (fun children =>
                          match children with
                          | JList l =>
                              for_each
                                (fun reply => parse_comment reply (depth + 1))
                                l comments
                          | _ =>
                              for_in children
                                (fun _ comments => Raised TypeError comments)
                                comments
                          end)
                        (fun e => Raised e comments))
                      (fun e => Raised e comments)
                    else Done comments
                  else Done comments)
                  (Done comments) d
            end
        | _ => Raised AttributeError comments
        end)
        (fun e => Raised e comments)
    else Done comments)
    (fun e => Raised e comments).

(** The statements of the [try] block after [response.json()]. *)
Definition reddit_walk (data : json) : run :=
  let comments := [] in
  match data with
  | JList (_ :: listing :: _) =>
      match getitem listing "data" with
      | inl e => Raised e comments
      | inr listing_data =>
          match getitem listing_data "children" with
          | inl e => Raised e comments
          | inr comments_data =>
              for_in comments_data (fun c => parse_comment c 0) comments
          end
      end
  | _ => Done comments
  end.

(** [session.get(url)] followed by [response.raise_for_status()] *)
Definition fetch (session_get : string -> exn + response) (url : string)
    : exn + response :=
  match session_get url with
  | inl e => inl e
  | inr r =>
      match raise_for_status r with
      | inl e => inl e
      | inr _ => inr r
      end
  end.

(** The endpoint [extract_reddit_comments] asks for. *)
Definition json_endpoint (url : string) : string :=
  if negb (endswith url ".json")
  then (rstrip "/" url ++ ".json")%string
  else url.

(** The first statements of the [try] block, up to [response.json()]. *)
Definition fetch_json (session_get : string -> exn + response) (url : string)
    : exn + json :=
  match fetch session_get (json_endpoint url) with
  | inl e => inl e
  | inr r => json_body r
  end.

(** The [try] block of [extract_reddit_comments]. *)
Definition reddit_try (session_get : string -> exn + response) (url : string) : run :=
  match fetch_json session_get url with
  | inl e => Raised e []
  | inr data => reddit_walk data
  end.

(** [extract_reddit_comments(url)]: the records returned and the
    messages shown. *)
Definition extract_reddit_comments (session_get : string -> exn + response)
    (url : string) : list comment * list message :=
  match reddit_try session_get url with
  | Done comments => (comments, [])
  | Raised e _ => ([], [st_error "Error extracting Reddit comments: " e])
  end.

(* ================================================================ *)
(** * The generic HTML extractor                                     *)
(* ================================================================ *)

(** The double quote character, for the two attribute selectors. *)
Definition dquote : string := String (ascii_of_nat 34) EmptyString.

Definition comment_selectors : list string :=
  [".comment"; ".comment-item"; ".comment-content";
   ("[class*=" ++ dquote ++ "comment" ++ dquote ++ "]")%string;
   ("[id*=" ++ dquote ++ "comment" ++ dquote ++ "]")%string;
   ".reply"; ".response"; ".discussion-item"].

(** [text[:500] + '...' if len(text) > 500 else text] *)
Definition truncate (text : string) : string :=
  if 500 <? String.length text
  then (slice_to 500 text ++ "...")%string
  else text.

(** [enumerate(l)] *)
Definition enumerate {A : Type} (l : list A) : list (nat * A) :=
  combine (seq 0 (length l)) l.

(** The dict literal of the generic extractor; [now] is what
    [datetime.now()] returns at that moment. *)
Definition generic_comment (selector : string) (i : nat) (text : string)
    (now : datetime) : comment :=
  {| author := JStr "Unknown";
     text := JStr (truncate text);
     score := JNull;
     created_utc := now;
     depth := 0;
     id := JStr ("generic_" ++ str_of_nat i)%string;
     permalink := None;
     source := Some selector |}.

(** The state of the two loops: the list [comments] and how many times
    the clock has been read. The [k]-th call of [datetime.now()] in a run
    returns [clock k]. *)
Section GenericLoops.
Context (clock : nat -> datetime) (page : soup).

(** [for i, element in enumerate(comment_elements[:50])] *)
Fixpoint element_loop (selector : string) (items : list (nat * element))
    (comments : list comment) (reads : nat) : list comment * nat :=
  match items with
  | [] => (comments, reads)
  | (i, e) :: items' =>
      let text := get_text e in
      if 10 <? String.length text
      then element_loop selector items'
             (comments ++ [generic_comment selector i text (clock reads)])
             (S reads)
      else element_loop selector items' comments reads
  end.

(** [for selector in comment_selectors], with its [break] *)
Fixpoint selector_loop (selectors : list string)
    (comments : list comment) (reads : nat) : list comment * nat :=
  match selectors with
  | [] => (comments, reads)
  | selector :: selectors' =>
      let comment_elements := select page selector in
      match comment_elements with
      | [] => selector_loop selectors' comments reads
      | _ :: _ =>
          let '(comments, reads) :=
            element_loop selector (enumerate (firstn 50 comment_elements))
              comments reads in
          match comments with
          | [] => selector_loop selectors' comments reads
          | _ :: _ => (comments, reads)
          end
      end
  end.
End GenericLoops.

(** The [try] block of [extract_generic_comments]. *)
Definition generic_try (session_get : string -> exn + response)
    (clock : nat -> datetime) (url : string) : exn + list comment :=
  match fetch session_get url with
  | inl e => inl e
  | inr r =>
      let page := BeautifulSoup (content r) in
      inr (fst (selector_loop clock page comment_selectors [] 0))
  end.

(** [extract_generic_comments(url)] *)
Definition extract_generic_comments (session_get : string -> exn + response)
    (clock : nat -> datetime) (url : string) : list comment * list message :=
  match generic_try session_get clock url with
  | inr comments => (comments, [])
  | inl e => ([], [st_error "Error extracting generic comments: " e])
  end.

(* ================================================================ *)
(** * The dispatcher                                                 *)
(* ================================================================ *)

Definition is_reddit (url : string) : bool :=
  contains "reddit.com" (lower (netloc url)).

(** [extract_comments(url)] *)
Definition extract_comments (session_get : string -> exn + response)
    (clock : nat -> datetime) (url : string) : list comment * list message :=
  if is_reddit url
  then extract_reddit_comments session_get url
  else extract_generic_comments session_get clock url.
End Extractor.

(* ================================================================== *)
(** * The payload read as a comment tree                               *)
(* ================================================================== *)

(** The vocabulary of the properties below: which nodes of a payload are
    comments, which nodes hang under a node, and the listings obtained
    by walking that tree. None of these functions raises: a part of the
    payload that does not have the shape of a listing has no nodes. *)

(** [node['kind'] == 't1'] *)
Definition is_comment (node : json) : bool :=
  match getitem node "kind" with
  | inr kind => eq_str kind "t1"
  | inl _ => false
  end.

(** The nodes under [node['data']['replies']['data']['children']], handed
    to [k]; [none] when that path does not lead to a list. *)
Definition replies_k {R : Type} (node : json) (k : list json -> R) (none : R) : R :=
  getitem_k node "data" (fun data =>
    getitem_k data "replies" (fun replies =>
      getitem_k replies "data" (fun listing =>
        getitem_k listing "children" (fun children =>
          match children with
          | JList l => k l
          | _ => none
          end)
        (fun _ => none))
      (fun _ => none))
    (fun _ => none))
  (fun _ => none).

(** The reply nodes of a node, in source order. *)
Definition replies_of (node : json) : list json :=
  replies_k node (fun l => l) [].

(** The nodes of the comment listing, element 1 of the payload. *)
Definition comment_listing (data : json) : list json :=
  match data with
  | JList (_ :: listing :: _) =>
      match getitem listing "data" with
      | inr listing_data =>
          match getitem listing_data "children" with
          | inr (JList l) => l
          | _ => []
          end
      | inl _ => []
      end
  | _ => []
  end.

(** The number of [t1] nodes in the subtree of a node, whatever the kind
    of the nodes on the way. *)
Fixpoint count_t1 (node : json) : nat :=
  (if is_comment node then 1 else 0)
  + replies_k node (fun l => list_sum (map count_t1 l)) 0.

(** The pre-order listing of the comments of a subtree, each with the
    number of comments above it: a comment, then the listings of its
    replies in source order. A node that is not a comment contributes
    nothing. *)
Fixpoint preorder (depth : nat) (node : json) : list (json * nat) :=
  if is_comment node
  then (node, depth) :: replies_k node (fun l => flat_map (preorder (S depth)) l) []
  else [].

(** [node] is a comment of the forest [top] and [ancestors] are the
    comments above it, nearest first. *)
Inductive located (top : list json) : list json -> json -> Prop :=
| located_top (node : json) :
    In node top -> is_comment node = true -> located top [] node
| located_reply (ancestors : list json) (parent node : json) :
    located top ancestors parent ->
    In node (replies_of parent) -> is_comment node = true ->
    located top (parent :: ancestors) node.

Section Vocabulary.
Context {lib : Library}.

(** The record of a comment node at a given depth. *)
Definition record_of (entry : json * nat) : exn + comment :=
  match getitem (fst entry) "data" with
  | inr (JDict d) => new_comment d (snd entry)
  | inr _ => inl AttributeError
  | inl e => inl e
  end.

(** The records of a list of comment nodes with their depths. *)
Definition records (entries : list (json * nat)) : list (exn + comment) :=
  map record_of entries.

(** A node as Reddit sends it. A comment has a [data] object whose
    timestamp [datetime.fromtimestamp] accepts and whose [replies], when
    it is a non-empty object, is a listing of such nodes. Any other node
    (a "more" stub) has a [kind] and no reply listing. *)
Fixpoint valid_node (node : json) : bool :=
  getitem_k node "kind" (fun kind =>
    if eq_str kind "t1" then
      getitem_k node "data" (fun data =>
        match data with
        | JDict d =>
            match fromtimestamp (dict_get d "created_utc" (JInt 0)) with
            | inr _ =>
                assoc_k "replies" (fun replies =>
                  if truthy replies && is_dict replies then
                    getitem_k replies "data" (fun listing =>
                      getitem_k listing "children" (fun children =>
                        match children with
                        | JList l => forallb valid_node l
                        | _ => false
                        end)
                      (fun _ => false))
                    (fun _ => false)
                  else true)
                  true d
            | inl _ => false
            end
        | _ => false
        end)
      (fun _ => false)
    else
      match replies_of node with
      | [] => true
      | _ :: _ => false
      end)
  (fun _ => false).

(** A payload as the structured endpoint sends it: a sequence of more
    than one element whose element 1 is a listing of valid nodes. *)
Definition valid_payload (data : json) : bool :=
  match data with
  | JList (_ :: listing :: _) =>
      match getitem listing "data" with
      | inr listing_data =>
          match getitem listing_data "children" with
          | inr (JList l) => forallb valid_node l
          | _ => false
          end
      | inl _ => false
      end
  | _ => false
  end.

(** A record without its timestamp. *)
Definition timeless (c : comment)
    : json * json * json * nat * json * option string * option string :=
  (author c, text c, score c, depth c, id c, permalink c, source c).

(** [len] of the [text] of a record; [None] when it is not a string. *)
Definition text_length (c : comment) : option nat :=
  match text c with
  | JStr s => Some (String.length s)
  | _ => None
  end.
End Vocabulary.

(* ================================================================== *)
(** * The generic extractor, as the specification words it             *)
(* ================================================================== *)

Section FirstMatch.
Context {lib : Library} (clock : nat -> datetime) (page : soup).

(** The candidates of a selector: its first 50 matches, numbered. *)
Definition candidates (selector : string) : list (nat * element) :=
  enumerate (firstn 50 (select page selector)).

(** A candidate survives when its text is longer than 10 characters. *)
Definition survives (item : nat * element) : bool :=
  10 <? String.length (get_text (snd item)).

Definition survivors (selector : string) : list (nat * element) :=
  filter survives (candidates selector).

(** The first selector of the list with a surviving candidate. *)
Definition winning_selector (selectors : list string) : option string :=
  find (fun selector => existsb survives (candidates selector)) selectors.

(** The records of a selector: one per survivor, in document order, the
    [k]-th of them stamped with the [k]-th reading of the clock. *)
Definition records_of_selector (selector : string) : list comment :=
  map (fun '(k, (i, e)) => generic_comment selector i (get_text e) (clock k))
      (enumerate (survivors selector)).

(** What the extractor returns: the records of the winning selector. *)
Definition first_match (selectors : list string) : list comment :=
  match winning_selector selectors with
  | Some selector => records_of_selector selector
  | None => []
  end.
End FirstMatch.

(* ================================================================== *)
(** * The page around the extractor                                    *)
(* ================================================================== *)

(** The statements of the script that take the list [comments] apart
    after [extract_comments] has returned: the inputs of the metrics, the
    slice that is displayed and the rows of the table. They run outside
    the two [try] blocks, so an exception here is not caught. *)
Section Presentation.
Context {lib : Library} (strftime : datetime -> string).

(** [len(x)]: strings, lists and dicts have a length. *)
Definition py_len (x : json) : exn + nat :=
  match x with
  | JStr s => inr (String.length s)
  | JList l => inr (length l)
  | JDict m => inr (length m)
  | _ => inl TypeError
  end.

(** [sum(len(c['text']) for c in comments)], the numerator of the
    average length. *)
Fixpoint total_text_length (comments : list comment) : exn + nat :=
  match comments with
  | [] => inr 0
  | c :: rest =>
      match py_len (text c) with
      | inl e => inl e
      | inr n =>
          match total_text_length rest with
          | inl e => inl e
          | inr total => inr (n + total)
          end
      end
  end.

(** The authors handed to [set(...)]:
    [c['author'] for c in comments if c['author'] != 'Unknown'] *)
Definition named_authors (comments : list comment) : list json :=
  map author (filter (fun c => negb (eq_str (author c) "Unknown")) comments).

(** [[c for c in comments if c.get('score') is not None]] *)
Definition scored_comments (comments : list comment) : list comment :=
  filter (fun c => match score c with JNull => false | _ => true end) comments.

(** [comments[:max_comments]] *)
Definition display_comments (comments : list comment) (max_comments : nat)
    : list comment :=
  firstn max_comments comments.

(** [text[:100] + '...' if len(text) > 100 else text]. A list of more
    than 100 items cannot be added to a string; a dict of more than 100
    keys cannot be sliced (a [KeyError] instead of the [TypeError] from
    Python 3.12 on, where a slice can be hashed). *)
Definition table_comment (text : json) : exn + json :=
  match py_len text with
  | inl e => inl e
  | inr n =>
      if 100 <? n then
        match text with
        | JStr s => inr (JStr (slice_to 100 s ++ "...")%string)
        | _ => inl TypeError
        end
      else inr text
  end.

(** A row of [df_data]. *)
Record row : Type := {
  Author : json;
  Comment : json;
  Score : json;
  Date : string;
  Depth : nat
}.

(** The dict literal appended to [df_data]. *)
Definition table_row (c : comment) : exn + row :=
  match table_comment (text c) with
  | inl e => inl e
  | inr cell =>
      inr {| Author := author c;
             Comment := cell;
             Score := score c;
             Date := strftime (created_utc c);
             Depth := depth c |}
  end.

(** [for comment in display_comments: df_data.append({...})] *)
Fixpoint df_data (display : list comment) : exn + list row :=
  match display with
  | [] => inr []
  | c :: rest =>
      match table_row c with
      | inl e => inl e
      | inr r =>
          match df_data rest with
          | inl e => inl e
          | inr rows => inr (r :: rows)
          end
      end
  end.

(** The list [comments] at the end of a run, returned or raised. *)
Definition final (r : run) : list comment :=
  match r with
  | Done comments => comments
  | Raised _ comments => comments
  end.
End Presentation.

(** A sequence of depths that, starting after [previous], never goes
    more than one level deeper from one entry to the next. *)
Fixpoint gentle (previous : nat) (depths : list nat) : Prop :=
  match depths with
  | [] => True
  | d :: rest => d <= previous + 1 /\ gentle d rest
  end.

(* ================================================================== *)
(** * A small library instance and sample inputs                       *)
(* ================================================================== *)

(** An instance of [Library] to run the extractor on concrete inputs:
    timestamps are whole seconds, a page is the list of its elements, each
    with the selectors that match it and its text. *)
Module Sample.

(** Seconds of the years 1 to 9999. *)
Definition in_range (n : Z) : bool :=
  ((-62135596800 <=? n) && (n <=? 253402300799))%Z.

Definition seconds (n : Z) : exn + Z :=
  if in_range n then inr n else inl ValueError.

Definition timestamp_seconds (x : json) : exn + Z :=
  match x with
  | JInt n => seconds n
  | JBool b => seconds (Z.b2z b)
  | JFloat (S754_zero _) => seconds 0
  | JFloat (S754_finite neg m e) =>
      seconds (Z.shiftl (if neg then Z.neg m else Z.pos m) e)
  | JFloat (S754_infinity _) => inl OverflowError
  | JFloat S754_nan => inl ValueError
  | _ => inl TypeError
  end.

Definition show (x : json) : string :=
  match x with
  | JNull => "None"
  | JBool true => "True"
  | JBool false => "False"
  | JStr s => s
  | _ => "?"
  end.

Record page_element : Type := {
  matched_by : list string;
  inner_text : string
}.

Definition select_by (page : list page_element) (selector : string) : list page_element :=
  filter (fun e => existsb (String.eqb selector) (matched_by e)) page.

(** The part of a URL between [//] and the next [/]. *)
Fixpoint after_slashes (s : string) : string :=
  match s with
  | String "/" (String "/" rest) => rest
  | String _ s' => after_slashes s'
  | EmptyString => EmptyString
  end.

Fixpoint up_to_slash (s : string) : string :=
  match s with
  | String "/" _ => EmptyString
  | String a s' => String a (up_to_slash s')
  | EmptyString => EmptyString
  end.

Definition host (url : string) : string := up_to_slash (after_slashes url).

#[export] Instance library : Library := {|
  datetime := Z;
  fromtimestamp := timestamp_seconds;
  format_value := show;
  document := list page_element;
  soup := list page_element;
  element := page_element;
  BeautifulSoup := fun page => page;
  select := select_by;
  get_text := inner_text;
  netloc := host
|}.

(** A network that serves one response at one URL. *)
Definition serving (url : string) (r : response) : string -> exn + response :=
  fun u => if String.eqb u url then inr r else inl RequestException.

Definition ok_json (data : json) : response :=
  {| status_code := 200; json_body := inr data; content := [] |}.

Definition ok_page (page : list page_element) : response :=
  {| status_code := 200; json_body := inl JSONDecodeError; content := page |}.

(** [n] copies of a character. *)
Fixpoint replicate (n : nat) (a : ascii) : string :=
  match n with
  | 0 => EmptyString
  | S n' => String a (replicate n' a)
  end.

Definition listing (children : list json) : json :=
  JDict [("kind", JStr "Listing"); ("data", JDict [("children", JList children)])].

Definition t1 (fields : list (string * json)) : json :=
  JDict [("kind", JStr "t1"); ("data", JDict fields)].

Definition more (fields : list (string * json)) : json :=
  JDict [("kind", JStr "more"); ("data", JDict fields)].

Definition payload (children : list json) : json :=
  JList [listing []; listing children].

(** The payload of the specification's example. *)
Definition alice : json :=
  t1 [("author", JStr "alice"); ("body", JStr "hi"); ("score", JInt 5);
      ("created_utc", JInt 0); ("id", JStr "c1"); ("permalink", JStr "/r/x/c1")].

(** A thread: a comment with a reply that has a reply and a stub, then
    a comment without replies, then a stub. *)
Definition carol : json :=
  t1 [("author", JStr "carol"); ("body", JStr "deep"); ("id", JStr "c3");
      ("created_utc", JInt 30); ("replies", JStr "")].

Definition bob : json :=
  t1 [("author", JStr "bob"); ("body", JStr "reply"); ("id", JStr "c2");
      ("created_utc", JInt 20);
      ("replies", listing [carol; more [("children", JList [JStr "c9"])]])].

Definition anna : json :=
  t1 [("author", JStr "anna"); ("body", JStr "top"); ("id", JStr "c1");
      ("created_utc", JInt 10); ("replies", listing [bob])].

Definition dave : json :=
  t1 [("author", JStr "dave"); ("body", JStr "last"); ("id", JStr "c4");
      ("created_utc", JInt 40); ("replies", JStr "")].

Definition thread : json :=
  payload [anna; dave; more [("children", JList [JStr "c7"; JStr "c8"])]].

(** A comment whose body has 600 characters. *)
Definition long_comment : json :=
  t1 [("author", JStr "erin"); ("body", JStr (replicate 600 "x"));
      ("created_utc", JInt 0); ("permalink", JStr "/r/x/c5")].

(** A comment without a permalink. *)
Definition unlinked : json :=
  t1 [("author", JStr "frank"); ("body", JStr "no link"); ("created_utc", JInt 0)].

(** A node without a [kind]. *)
Definition kindless : json := JDict [("data", JDict [])].

(** A stub that carries a reply listing with a comment in it. *)
Definition stub_with_reply : json :=
  more [("replies", listing [alice])].

Definition reddit_url : string := "https://www.reddit.com/r/x/comments/abc/".
Definition reddit_endpoint : string := "https://www.reddit.com/r/x/comments/abc.json".
Definition blog_url : string := "https://blog.example.org/post/1".

(** A page with a short and two long [.comment] elements, the second
    of 600 characters, and a [.reply] element. *)
Definition page : list page_element :=
  [ {| matched_by := [".comment"]; inner_text := "short" |};
    {| matched_by := [".comment"]; inner_text := "a comment of some length" |};
    {| matched_by := [".comment"]; inner_text := replicate 600 "y" |};
    {| matched_by := [".reply"]; inner_text := "a reply of some length" |} ].

Definition midnight : nat -> Z := fun _ => 0%Z.
Definition noon : nat -> Z := fun _ => 43200%Z.

(** Networks: one that serves a payload at the JSON endpoint, one that
    serves a page, and three that fail. *)
Definition reddit_serving (data : json) : string -> exn + response :=
  serving reddit_endpoint (ok_json data).

Definition blog : string -> exn + response := serving blog_url (ok_page page).

Definition offline : string -> exn + response := fun _ => inl RequestException.

Definition not_found : response :=
  {| status_code := 404; json_body := inl JSONDecodeError; content := [] |}.

Definition not_json : response :=
  {| status_code := 200; json_body := inl JSONDecodeError; content := [] |}.

(** The records of [alice] and [carol] where they stand in the samples. *)
Definition alice_record : comment :=
  {| author := JStr "alice"; text := JStr "hi"; score := JInt 5;
     created_utc := 0%Z; depth := 0; id := JStr "c1";
     permalink := Some "https://reddit.com/r/x/c1"; source := None |}.

Definition carol_record : comment :=
  {| author := JStr "carol"; text := JStr "deep"; score := JInt 0;
     created_utc := 30%Z; depth := 2; id := JStr "c3";
     permalink := Some "https://reddit.com"; source := None |}.

Definition unlinked_record : comment :=
  {| author := JStr "frank"; text := JStr "no link"; score := JInt 0;
     created_utc := 0%Z; depth := 0; id := JStr "";
     permalink := Some "https://reddit.com"; source := None |}.

(** A page with fifty short [.comment] elements, then a long one, then a
    [.reply] element; and the same page without the fifty-first. *)
Definition short_element : page_element :=
  {| matched_by := [".comment"]; inner_text := "+1" |}.

Definition late_element : page_element :=
  {| matched_by := [".comment"]; inner_text := "the fifty-first comment" |}.

Definition reply_element : page_element :=
  {| matched_by := [".reply"]; inner_text := "a reply of some length" |}.

Definition crowded_page : list page_element :=
  repeat short_element 50 ++ [late_element; reply_element].

Definition cut_page : list page_element :=
  repeat short_element 50 ++ [reply_element].

(** A comment whose body is a number, and its record. *)
Definition numbered : json :=
  t1 [("author", JStr "gail"); ("body", JInt 42); ("created_utc", JInt 0)].

Definition numbered_record : comment :=
  {| author := JStr "gail"; text := JInt 42; score := JInt 0;
     created_utc := 0%Z; depth := 0; id := JStr "";
     permalink := Some "https://reddit.com"; source := None |}.

(** A comment that is cut short by a reply listing without [data]. *)
Definition broken_replies : json :=
  t1 [("author", JStr "hal"); ("body", JStr "cut"); ("created_utc", JInt 0);
      ("replies", JDict [("kind", JStr "Listing")])].

(** A redirect that was not followed, with the sample page as its body. *)
Definition moved : response :=
  {| status_code := 302; json_body := inl JSONDecodeError; content := page |}.

(** The date column of the sample table. *)
Definition date_string (t : Z) : string := NilZero.string_of_int (Z.to_int t).
End Sample.

(* ================================================================== *)
(** * Lookups and sizes                                                *)
(* ================================================================== *)

Lemma assoc_k_spec {R : Type} (key : string) (found : json -> R) (missing : R)
    (m : list (string * json)) :
  assoc_k key found missing m
  = match assoc key m with Some v => found v | None => missing end.
Proof.
  induction m as [|[k v] m IH]; simpl; [reflexivity|].
  destruct (String.eqb k key); [reflexivity | exact IH].
Qed.

Lemma getitem_k_spec {R : Type} (obj : json) (key : string)
    (found : json -> R) (raise : exn -> R) :
  getitem_k obj key found raise
  = match getitem obj key with inr v => found v | inl e => raise e end.
Proof.
  destruct obj; simpl; try reflexivity.
  rewrite assoc_k_spec. destruct (assoc key m); reflexivity.
Qed.

Lemma getitem_dict (obj : json) (key : string) (v : json) :
  getitem obj key = inr v -> exists m, obj = JDict m /\ assoc key m = Some v.
Proof.
  destruct obj; simpl; try discriminate.
  destruct (assoc key m) eqn:E; [|discriminate].
  intros [= <-]. now exists m.
Qed.

Lemma assoc_size (key : string) (m : list (string * json)) (v : json) :
  assoc key m = Some v -> json_size v < json_size (JDict m).
Proof.
  simpl. induction m as [|[k w] m IH]; simpl; [discriminate|].
  destruct (String.eqb k key).
  - intros [= ->]. lia.
  - intros H. specialize (IH H). lia.
Qed.

Lemma getitem_size (obj : json) (key : string) (v : json) :
  getitem obj key = inr v -> json_size v < json_size obj.
Proof.
  intros H. destruct (getitem_dict _ _ _ H) as [m [-> Hm]].
  now apply assoc_size with key.
Qed.

Lemma item_size (l : list json) (x : json) :
  In x l -> json_size x < json_size (JList l).
Proof.
  simpl. induction l as [|y l IH]; simpl; [contradiction|].
  intros [->|H]; [lia | specialize (IH H); lia].
Qed.

(** Induction on the payload: a property holds of a value when it holds of
    every smaller one. *)
Lemma json_size_ind (P : json -> Prop) :
  (forall j, (forall j', json_size j' < json_size j -> P j') -> P j) ->
  forall j, P j.
Proof.
  intros step j.
  assert (H : forall n j, json_size j < n -> P j).
  { induction n as [|n IH]; intros j' Hn; [lia|].
    apply step. intros j'' Hlt. apply IH. lia. }
  apply (H (S (json_size j))). lia.
Qed.

(* ================================================================== *)
(** * The tree vocabulary, unfolded                                    *)
(* ================================================================== *)

(** The listing under [replies], when the path leads to a list. *)
Lemma replies_of_spec (node : json) :
  replies_of node
  = match getitem node "data" with
    | inr data =>
        match getitem data "replies" with
        | inr replies =>
            match getitem replies "data" with
            | inr listing =>
                match getitem listing "children" with
                | inr (JList l) => l
                | _ => []
                end
            | inl _ => []
            end
        | inl _ => []
        end
    | inl _ => []
    end.
Proof.
  unfold replies_of, replies_k.
  rewrite getitem_k_spec. destruct (getitem node "data") as [e|data]; [reflexivity|].
  rewrite getitem_k_spec. destruct (getitem data "replies") as [e|replies]; [reflexivity|].
  rewrite getitem_k_spec. destruct (getitem replies "data") as [e|listing]; [reflexivity|].
  rewrite getitem_k_spec. destruct (getitem listing "children") as [e|children]; reflexivity.
Qed.

Lemma replies_k_spec {R : Type} (node : json) (k : list json -> R) :
  replies_k node k (k []) = k (replies_of node).
Proof.
  rewrite replies_of_spec. unfold replies_k.
  rewrite getitem_k_spec. destruct (getitem node "data") as [e|data]; [reflexivity|].
  rewrite getitem_k_spec. destruct (getitem data "replies") as [e|replies]; [reflexivity|].
  rewrite getitem_k_spec. destruct (getitem replies "data") as [e|listing]; [reflexivity|].
  rewrite getitem_k_spec. destruct (getitem listing "children") as [e|children]; [reflexivity|].
  destruct children; reflexivity.
Qed.

Lemma replies_of_size (node x : json) :
  In x (replies_of node) -> json_size x < json_size node.
Proof.
  rewrite replies_of_spec.
  destruct (getitem node "data") as [e|data] eqn:E1; [contradiction|].
  destruct (getitem data "replies") as [e|replies] eqn:E2; [contradiction|].
  destruct (getitem replies "data") as [e|listing] eqn:E3; [contradiction|].
  destruct (getitem listing "children") as [e|children] eqn:E4; [contradiction|].
  destruct children; try contradiction.
  intros Hx. apply item_size in Hx.
  apply getitem_size in E1, E2, E3, E4. lia.
Qed.

Lemma count_t1_eq (node : json) :
  count_t1 node
  = (if is_comment node then 1 else 0) + list_sum (map count_t1 (replies_of node)).
Proof.
  rewrite <- (replies_k_spec node (fun l => list_sum (map count_t1 l))).
  destruct node; reflexivity.
Qed.

Lemma preorder_eq (depth : nat) (node : json) :
  preorder depth node
  = if is_comment node
    then (node, depth) :: flat_map (preorder (S depth)) (replies_of node)
    else [].
Proof.
  rewrite <- (replies_k_spec node (fun l => flat_map (preorder (S depth)) l)).
  destruct node; reflexivity.
Qed.

(* ================================================================== *)
(** * The tree walk, step by step                                      *)
(* ================================================================== *)

Section WalkProofs.
Context {lib : Library}.

(** A value that is not a dict cannot be subscripted with ['kind']. *)
Lemma parse_comment_not_dict (node : json) (depth : nat) (comments : list comment) :
  is_dict node = false -> parse_comment node depth comments = Raised TypeError comments.
Proof. destruct node; simpl; intros H; try reflexivity; discriminate. Qed.

Lemma for_each_ext (f g : json -> list comment -> run) (l : list json)
    (comments : list comment) :
  (forall x cs, In x l -> f x cs = g x cs) ->
  for_each f l comments = for_each g l comments.
Proof.
  revert comments. induction l as [|x l IH]; intros comments H; simpl; [reflexivity|].
  rewrite (H x comments (or_introl eq_refl)).
  destruct (g x comments); [|reflexivity].
  apply IH. intros y cs Hy. apply H. now right.
Qed.

(** Iterating a string or a dict calls [parse_comment] on strings. *)
Lemma for_in_strings (children : json) (depth : nat) (comments : list comment) :
  is_list children = false ->
  for_in children (fun _ cs => Raised TypeError cs) comments
  = for_in children (fun reply => parse_comment reply depth) comments.
Proof.
  intros Hl. destruct children; try reflexivity; try discriminate; simpl.
  - apply for_each_ext. intros x cs Hx. unfold characters in Hx.
    apply in_map_iff in Hx. destruct Hx as [a [<- _]]. reflexivity.
  - apply for_each_ext. intros x cs Hx.
    apply in_map_iff in Hx. destruct Hx as [kv [<- _]]. reflexivity.
Qed.

(** The body of [parse_comment], statement by statement. *)
Lemma parse_comment_eq (node : json) (depth : nat) (comments : list comment) :
  parse_comment node depth comments
  = match getitem node "kind" with
    | inl e => Raised e comments
    | inr kind =>
        if eq_str kind "t1" then
          match getitem node "data" with
          | inl e => Raised e comments
          | inr (JDict d) =>
              match new_comment d depth with
              | inl e => Raised e comments
              | inr c =>
                  match assoc "replies" d with
                  | None => Done (comments ++ [c])
                  | Some replies =>
                      if truthy replies then
                        if is_dict replies then
                          match getitem replies "data" with
                          | inl e => Raised e (comments ++ [c])
                          | inr listing =>
                              match getitem listing "children" with
                              | inl e => Raised e (comments ++ [c])
                              | inr children =>
                                  for_in children
                                    (fun reply => parse_comment reply (depth + 1))
                                    (comments ++ [c])
                              end
                          end
                        else Done (comments ++ [c])
                      else Done (comments ++ [c])
                  end
              end
          | inr _ => Raised AttributeError comments
          end
        else Done comments
    end.
Proof.
  destruct node; try reflexivity.
  simpl. rewrite assoc_k_spec.
  destruct (assoc "kind" m) as [kind|]; [|reflexivity].
  destruct (eq_str kind "t1"); [|reflexivity].
  rewrite assoc_k_spec.
  destruct (assoc "data" m) as [data|]; [|reflexivity].
  destruct data; try reflexivity.
  destruct (new_comment m0 depth) as [e|c]; [reflexivity|].
  rewrite assoc_k_spec.
  destruct (assoc "replies" m0) as [replies|]; [|reflexivity].
  destruct (truthy replies); [|reflexivity].
  destruct (is_dict replies); [|reflexivity].
  rewrite getitem_k_spec.
  destruct (getitem replies "data") as [e|listing]; [reflexivity|].
  rewrite getitem_k_spec.
  destruct (getitem listing "children") as [e|children]; [reflexivity|].
  destruct children; try reflexivity; now apply for_in_strings.
Qed.

(** A loop over something that is not a list ends normally only when
    there is nothing to iterate. *)
Lemma for_in_not_list (children : json) (depth : nat) (comments out : list comment) :
  is_list children = false ->
  for_in children (fun reply => parse_comment reply depth) comments = Done out ->
  out = comments.
Proof.
  intros Hl. destruct children; try discriminate; simpl.
  - destruct s; simpl; [now intros [= <-] | discriminate].
  - destruct m as [|[k v] m]; simpl; [now intros [= <-] | discriminate].
Qed.

Lemma records_app (a b : list (json * nat)) :
  records (a ++ b) = records a ++ records b.
Proof. apply map_app. Qed.

(** A loop of [parse_comment] that ends normally has appended the
    pre-order records of each item in turn. *)
Lemma for_each_done (depth : nat) (l : list json) :
  (forall x, In x l -> forall comments out,
      parse_comment x depth comments = Done out ->
      exists new, out = comments ++ new
                  /\ map inr new = records (preorder depth x)) ->
  forall comments out,
    for_each (fun reply => parse_comment reply depth) l comments = Done out ->
    exists new, out = comments ++ new
                /\ map inr new = records (flat_map (preorder depth) l).
Proof.
  induction l as [|x l IH]; intros Hl comments out; simpl.
  - intros [= <-]. exists []. split; [now rewrite app_nil_r | reflexivity].
  - destruct (parse_comment x depth comments) as [mid|] eqn:Hx; [|discriminate].
    intros Hrest.
    destruct (Hl x (or_introl eq_refl) _ _ Hx) as [n1 [-> Hn1]].
    destruct (IH (fun y Hy => Hl y (or_intror Hy)) _ _ Hrest) as [n2 [-> Hn2]].
    exists (n1 ++ n2). split; [now rewrite app_assoc|].
    now rewrite map_app, records_app, Hn1, Hn2.
Qed.

(** A call of [parse_comment] that returns has appended the pre-order
    records of the subtree of its node, and nothing else. *)
Lemma parse_comment_done (node : json) :
  forall depth comments out,
    parse_comment node depth comments = Done out ->
    exists new, out = comments ++ new
                /\ map inr new = records (preorder depth node).
Proof.
  induction node as [node IH] using json_size_ind.
  intros depth comments out.
  rewrite parse_comment_eq, preorder_eq, replies_of_spec. unfold is_comment.
  destruct (getitem node "kind") as [e|kind] eqn:Hkind; [discriminate|].
  destruct (eq_str kind "t1").
  2:{ intros [= <-]. exists []. now rewrite app_nil_r. }
  destruct (getitem node "data") as [e|data] eqn:Hdata; [discriminate|].
  destruct data as [| | | | | |d]; try discriminate.
  destruct (new_comment d depth) as [e|c] eqn:Hc; [discriminate|].
  assert (Hrec : record_of (node, depth) = inr c).
  { unfold record_of; simpl. now rewrite Hdata. }
  assert (Hleaf : forall l, l = [] ->
            exists new, comments ++ [c] = comments ++ new
              /\ map inr new
                 = records ((node, depth) :: flat_map (preorder (S depth)) l)).
  { intros l ->. exists [c]. split; [reflexivity|]. simpl. now rewrite Hrec. }
  simpl (getitem (JDict d) "replies").
  destruct (assoc "replies" d) as [replies|] eqn:Hreplies.
  2:{ intros [= <-]. now apply Hleaf. }
  destruct (truthy replies) eqn:Htruthy.
  2:{ intros [= <-]. apply Hleaf.
      destruct replies; try reflexivity; simpl in Htruthy.
      destruct m; [reflexivity | discriminate]. }
  destruct (is_dict replies) eqn:Hdict.
  2:{ intros [= <-]. apply Hleaf. destruct replies; try reflexivity; discriminate. }
  destruct (getitem replies "data") as [e|listing] eqn:Hlisting; [discriminate|].
  destruct (getitem listing "children") as [e|children] eqn:Hchildren; [discriminate|].
  destruct (is_list children) eqn:Hlist.
  - destruct children; try discriminate. simpl for_in.
    replace (depth + 1) with (S depth) by lia.
    intros Hloop.
    apply for_each_done in Hloop.
    + destruct Hloop as [new [-> Hnew]].
      exists (c :: new). split; [now rewrite <- app_assoc|].
      simpl. now rewrite Hrec, Hnew.
    + intros x Hx. apply IH.
      apply item_size in Hx.
      apply getitem_size in Hdata, Hlisting, Hchildren.
      apply assoc_size in Hreplies. lia.
  - intros Hloop. apply for_in_not_list in Hloop; [|exact Hlist].
    subst out. apply Hleaf. destruct children; try reflexivity; discriminate.
Qed.
End WalkProofs.

(* ================================================================== *)
(** * Valid payloads                                                   *)
(* ================================================================== *)

Section ValidProofs.
Context {lib : Library}.

Lemma valid_node_eq (node : json) :
  valid_node node
  = match getitem node "kind" with
    | inl _ => false
    | inr kind =>
        if eq_str kind "t1" then
          match getitem node "data" with
          | inr (JDict d) =>
              match fromtimestamp (dict_get d "created_utc" (JInt 0)) with
              | inr _ =>
                  match assoc "replies" d with
                  | None => true
                  | Some replies =>
                      if truthy replies && is_dict replies then
                        match getitem replies "data" with
                        | inr listing =>
                            match getitem listing "children" with
                            | inr (JList l) => forallb valid_node l
                            | _ => false
                            end
                        | inl _ => false
                        end
                      else true
                  end
              | inl _ => false
              end
          | _ => false
          end
        else match replies_of node with [] => true | _ :: _ => false end
    end.
Proof.
  destruct node; try reflexivity.
  simpl. rewrite assoc_k_spec.
  destruct (assoc "kind" m) as [kind|]; [|reflexivity].
  destruct (eq_str kind "t1"); [|reflexivity].
  rewrite assoc_k_spec.
  destruct (assoc "data" m) as [data|]; [|reflexivity].
  destruct data; try reflexivity.
  destruct (fromtimestamp (dict_get m0 "created_utc" (JInt 0))); [reflexivity|].
  rewrite assoc_k_spec.
  destruct (assoc "replies" m0) as [replies|]; [|reflexivity].
  destruct (truthy replies && is_dict replies); [|reflexivity].
  rewrite getitem_k_spec.
  destruct (getitem replies "data") as [e|listing]; [reflexivity|].
  rewrite getitem_k_spec.
  destruct (getitem listing "children") as [e|children]; [reflexivity|].
  destruct children; reflexivity.
Qed.

(** A stub of a valid payload has no reply listing. *)
Lemma valid_stub_no_replies (node : json) :
  valid_node node = true -> is_comment node = false -> replies_of node = [].
Proof.
  rewrite valid_node_eq. unfold is_comment.
  destruct (getitem node "kind") as [e|kind]; [discriminate|].
  intros H Hk. rewrite Hk in H.
  destruct (replies_of node); [reflexivity | discriminate].
Qed.

(** The replies of a valid comment are valid nodes. *)
Lemma valid_comment_replies (node : json) :
  valid_node node = true -> is_comment node = true ->
  forallb valid_node (replies_of node) = true.
Proof.
  rewrite valid_node_eq, replies_of_spec. unfold is_comment.
  destruct (getitem node "kind") as [e|kind]; [discriminate|].
  intros H Hk. rewrite Hk in H.
  destruct (getitem node "data") as [e|data]; [discriminate|].
  destruct data as [| | | | | |d]; try discriminate.
  destruct (fromtimestamp (dict_get d "created_utc" (JInt 0))); [discriminate|].
  simpl (getitem (JDict d) "replies").
  destruct (assoc "replies" d) as [replies|]; [|reflexivity].
  destruct replies as [| | | | | |r]; try reflexivity.
  destruct r as [|kv r]; [reflexivity|].
  simpl (truthy _ && is_dict _) in H. cbv iota in H.
  destruct (getitem (JDict (kv :: r)) "data") as [e|listing]; [reflexivity|].
  destruct (getitem listing "children") as [e|children]; [reflexivity|].
  destruct children; try reflexivity. exact H.
Qed.

Lemma for_each_returns (depth : nat) (l : list json) :
  (forall x, In x l ->
     forall comments, exists out, parse_comment x depth comments = Done out) ->
  forall comments,
    exists out, for_each (fun c => parse_comment c depth) l comments = Done out.
Proof.
  induction l as [|x l IH]; intros Hl comments; simpl; [now eexists|].
  destruct (Hl x (or_introl eq_refl) comments) as [mid ->].
  apply IH. intros y Hy. apply Hl. now right.
Qed.

(** On a valid node [parse_comment] does not raise. *)
Lemma valid_node_done (node : json) :
  valid_node node = true ->
  forall depth comments, exists out, parse_comment node depth comments = Done out.
Proof.
  induction node as [node IH] using json_size_ind.
  intros Hv depth comments. revert Hv.
  rewrite valid_node_eq, parse_comment_eq.
  destruct (getitem node "kind") as [e|kind]; [discriminate|].
  destruct (eq_str kind "t1"); [|intros _; now eexists].
  destruct (getitem node "data") as [e|data] eqn:Hdata; [discriminate|].
  destruct data as [| | | | | |d]; try discriminate.
  unfold new_comment.
  destruct (fromtimestamp (dict_get d "created_utc" (JInt 0))) as [e|t]; [discriminate|].
  destruct (assoc "replies" d) as [replies|] eqn:Hreplies; [|intros _; now eexists].
  destruct (truthy replies); [|intros _; now eexists].
  destruct (is_dict replies); [|intros _; now eexists].
  simpl (true && true). cbv iota.
  destruct (getitem replies "data") as [e|listing] eqn:Hlisting; [discriminate|].
  destruct (getitem listing "children") as [e|children] eqn:Hchildren; [discriminate|].
  destruct children as [| | | | |l|]; try discriminate.
  intros Hall. simpl for_in.
  assert (Hsize : forall x, In x l -> json_size x < json_size node).
  { intros x Hx. apply item_size in Hx.
    apply getitem_size in Hdata, Hlisting, Hchildren.
    apply assoc_size in Hreplies. lia. }
  apply for_each_returns. intros x Hx.
  apply forallb_forall with (x := x) in Hall; [|exact Hx].
  now apply IH; [apply Hsize|].
Qed.

(** In a valid subtree every [t1] node is listed by the pre-order walk. *)
Lemma valid_node_count (node : json) :
  valid_node node = true ->
  forall depth, length (preorder depth node) = count_t1 node.
Proof.
  induction node as [node IH] using json_size_ind.
  intros Hv depth. rewrite preorder_eq, count_t1_eq.
  destruct (is_comment node) eqn:Hk.
  - simpl. f_equal.
    pose proof (valid_comment_replies node Hv Hk) as Hall.
    pose proof (replies_of_size node) as Hsize.
    induction (replies_of node) as [|x l IHl]; simpl; [reflexivity|].
    simpl in Hall. apply andb_true_iff in Hall. destruct Hall as [Hx Hl].
    rewrite length_app, (IH x (Hsize x (or_introl eq_refl)) Hx).
    f_equal. apply IHl; [exact Hl|]. intros y Hy. apply Hsize. now right.
  - now rewrite (valid_stub_no_replies node Hv Hk).
Qed.

Lemma valid_nodes_done (l : list json) :
  forallb valid_node l = true ->
  forall depth comments,
    exists out, for_each (fun c => parse_comment c depth) l comments = Done out.
Proof.
  intros Hall depth. apply for_each_returns. intros x Hx comments.
  apply forallb_forall with (x := x) in Hall; [|exact Hx].
  now apply valid_node_done.
Qed.

Lemma valid_nodes_count (l : list json) :
  forallb valid_node l = true ->
  forall depth, length (flat_map (preorder depth) l) = list_sum (map count_t1 l).
Proof.
  induction l as [|x l IH]; intros Hall depth; simpl; [reflexivity|].
  simpl in Hall. apply andb_true_iff in Hall. destruct Hall as [Hx Hl].
  now rewrite length_app, valid_node_count, IH.
Qed.
End ValidProofs.

(* ================================================================== *)
(** * From the node to the payload                                     *)
(* ================================================================== *)

Section PayloadProofs.
Context {lib : Library}.

(** A walk that returns has built the pre-order records of the comment
    listing. *)
Lemma reddit_walk_done (data : json) (out : list comment) :
  reddit_walk data = Done out ->
  map inr out = records (flat_map (preorder 0) (comment_listing data)).
Proof.
  unfold reddit_walk, comment_listing.
  destruct data as [| | | | |l|]; try (intros [= <-]; reflexivity).
  destruct l as [|post l]; [intros [= <-]; reflexivity|].
  destruct l as [|listing l]; [intros [= <-]; reflexivity|].
  destruct (getitem listing "data") as [e|listing_data]; [discriminate|].
  destruct (getitem listing_data "children") as [e|children]; [discriminate|].
  destruct (is_list children) eqn:Hlist.
  - destruct children; try discriminate. simpl for_in. intros Hloop.
    apply for_each_done in Hloop.
    + destruct Hloop as [new [-> Hnew]]. exact Hnew.
    + intros x _. apply parse_comment_done.
  - intros Hloop. apply for_in_not_list in Hloop; [|exact Hlist]. subst out.
    destruct children; try reflexivity; discriminate.
Qed.

Lemma valid_payload_done (data : json) :
  valid_payload data = true -> exists out, reddit_walk data = Done out.
Proof.
  unfold valid_payload, reddit_walk.
  destruct data as [| | | | |l|]; try discriminate.
  destruct l as [|post l]; [discriminate|].
  destruct l as [|listing l]; [discriminate|].
  destruct (getitem listing "data") as [e|listing_data]; [discriminate|].
  destruct (getitem listing_data "children") as [e|children]; [discriminate|].
  destruct children; try discriminate.
  intros Hall. simpl for_in. now apply valid_nodes_done.
Qed.

Lemma valid_payload_count (data : json) :
  valid_payload data = true ->
  length (flat_map (preorder 0) (comment_listing data))
  = list_sum (map count_t1 (comment_listing data)).
Proof.
  unfold valid_payload, comment_listing.
  destruct data as [| | | | |l|]; try discriminate.
  destruct l as [|post l]; [discriminate|].
  destruct l as [|listing l]; [discriminate|].
  destruct (getitem listing "data") as [e|listing_data]; [discriminate|].
  destruct (getitem listing_data "children") as [e|children]; [discriminate|].
  destruct children; try discriminate.
  intros Hall. now apply valid_nodes_count.
Qed.

(** What the operation returns once the payload is there. *)
Lemma extract_reddit_served (session_get : string -> exn + response)
    (url : string) (data : json) :
  fetch_json session_get url = inr data ->
  extract_reddit_comments session_get url
  = match reddit_walk data with
    | Done comments => (comments, [])
    | Raised e _ => ([], [st_error "Error extracting Reddit comments: " e])
    end.
Proof. intros H. unfold extract_reddit_comments, reddit_try. now rewrite H. Qed.

(** A result without a message is a walk that returned. *)
Lemma extract_reddit_silent (session_get : string -> exn + response)
    (url : string) (data : json) (out : list comment) :
  fetch_json session_get url = inr data ->
  extract_reddit_comments session_get url = (out, []) ->
  reddit_walk data = Done out.
Proof.
  intros H. rewrite (extract_reddit_served _ _ _ H).
  destruct (reddit_walk data); [now intros [= ->] | discriminate].
Qed.

(** Every record returned is a record of the walk. *)
Lemma extract_reddit_in (session_get : string -> exn + response)
    (url : string) (data : json) (c : comment) :
  fetch_json session_get url = inr data ->
  In c (fst (extract_reddit_comments session_get url)) ->
  exists out, reddit_walk data = Done out /\ In c out.
Proof.
  intros H. rewrite (extract_reddit_served _ _ _ H).
  destruct (reddit_walk data) as [out|e partial]; simpl; [|contradiction].
  intros Hc. now exists out.
Qed.

Lemma length_records (entries : list (json * nat)) (out : list comment) :
  map inr out = records entries -> length out = length entries.
Proof.
  intros H. apply (f_equal (@length _)) in H.
  unfold records in H. now rewrite !length_map in H.
Qed.

(** ** The comments of a payload and the comments above them *)

Lemma located_mono (top top' : list json) (ancestors : list json) (node : json) :
  (forall x, In x top -> In x top') ->
  located top ancestors node -> located top' ancestors node.
Proof.
  intros Hsub H. induction H.
  - apply located_top; auto.
  - now apply located_reply with (1 := IHlocated).
Qed.

(** A comment located among the replies of a located comment. *)
Lemma located_extend (top above : list json) (x : json)
    (ancestors : list json) (node : json) :
  located top above x ->
  located (replies_of x) ancestors node ->
  located top (ancestors ++ x :: above) node.
Proof.
  intros Hx H. induction H.
  - simpl. now apply located_reply.
  - simpl. now apply located_reply with (1 := IHlocated).
Qed.

Lemma preorder_located (x : json) :
  forall d node k,
    In (node, k) (preorder d x) ->
    exists ancestors, located [x] ancestors node /\ k = d + length ancestors.
Proof.
  induction x as [x IH] using json_size_ind.
  intros d node k. rewrite preorder_eq.
  destruct (is_comment x) eqn:Hx; [|contradiction].
  intros [[= <- <-]|Hin].
  - exists []. split; [|simpl; lia].
    apply located_top; [now left | exact Hx].
  - apply in_flat_map in Hin. destruct Hin as [y [Hy Hin]].
    destruct (IH y (replies_of_size x y Hy) _ _ _ Hin) as [anc [Hloc ->]].
    exists (anc ++ [x]). split; [|rewrite length_app; simpl; lia].
    apply located_extend.
    + apply located_top; [now left | exact Hx].
    + apply located_mono with (2 := Hloc). intros z [<-|[]]. exact Hy.
Qed.

Lemma preorder_self (d : nat) (node : json) :
  is_comment node = true -> In (node, d) (preorder d node).
Proof. intros H. rewrite preorder_eq, H. now left. Qed.

(** The pre-order listing is closed under replies. *)
Lemma preorder_closed (x : json) :
  forall d parent k node,
    In (parent, k) (preorder d x) ->
    In node (replies_of parent) -> is_comment node = true ->
    In (node, S k) (preorder d x).
Proof.
  induction x as [x IH] using json_size_ind.
  intros d parent k node. rewrite preorder_eq.
  destruct (is_comment x) eqn:Hx; [|contradiction].
  intros [[= <- <-]|Hin] Hnode Hk; right; apply in_flat_map.
  - exists node. split; [exact Hnode | now apply preorder_self].
  - apply in_flat_map in Hin. destruct Hin as [y [Hy Hin]].
    exists y. split; [exact Hy|].
    now apply (IH y (replies_of_size x y Hy)) with (parent := parent).
Qed.

(** The entries of the pre-order listing of a forest are its located
    comments, each with the number of comments above it. *)
Lemma in_preorder_located (top : list json) (node : json) (k : nat) :
  In (node, k) (flat_map (preorder 0) top)
  <-> exists ancestors, located top ancestors node /\ k = length ancestors.
Proof.
  split.
  - intros Hin. apply in_flat_map in Hin. destruct Hin as [x [Hx Hin]].
    destruct (preorder_located x _ _ _ Hin) as [anc [Hloc ->]].
    exists anc. split; [|reflexivity].
    apply located_mono with (2 := Hloc). intros z [<-|[]]. exact Hx.
  - intros [anc [Hloc ->]]. induction Hloc.
    + apply in_flat_map. exists node. split; [assumption | now apply preorder_self].
    + apply in_flat_map in IHHloc. destruct IHHloc as [x [Hx Hin]].
      apply in_flat_map. exists x. split; [exact Hx|].
      now apply preorder_closed with (parent := parent).
Qed.

Lemma record_of_depth (node : json) (k : nat) (c : comment) :
  record_of (node, k) = inr c -> depth c = k.
Proof.
  unfold record_of, new_comment; simpl.
  destruct (getitem node "data") as [e|data]; [discriminate|].
  destruct data; try discriminate.
  destruct (fromtimestamp _); [discriminate|].
  now intros [= <-].
Qed.

(** The records of a walk that returned are the records of the located
    comments. *)
Lemma reddit_walk_records (data : json) (out : list comment) (c : comment) :
  reddit_walk data = Done out ->
  In c out
  <-> exists ancestors node,
        located (comment_listing data) ancestors node
        /\ record_of (node, length ancestors) = inr c.
Proof.
  intros Hwalk. apply reddit_walk_done in Hwalk. split.
  - intros Hc. apply (in_map (@inr exn comment)) in Hc. rewrite Hwalk in Hc.
    unfold records in Hc. apply in_map_iff in Hc.
    destruct Hc as [[node k] [Hrec Hin]].
    apply in_preorder_located in Hin. destruct Hin as [anc [Hloc ->]].
    now exists anc, node.
  - intros [anc [node [Hloc Hrec]]].
    assert (Hin : In (inr c) (map (@inr exn comment) out)).
    { rewrite Hwalk. unfold records. apply in_map_iff.
      exists (node, length anc). split; [exact Hrec|].
      apply in_preorder_located. now exists anc. }
    apply in_map_iff in Hin. destruct Hin as [c' [[= ->] Hc']]. exact Hc'.
Qed.
End PayloadProofs.

(* ================================================================== *)
(** * Properties of the Reddit extractor                               *)
(* ================================================================== *)

Section RedditProperties.
Context {lib : Library}.

Lemma located_comments (top ancestors : list json) (node : json) :
  located top ancestors node ->
  Forall (fun n => is_comment n = true) (node :: ancestors).
Proof.
  intros H. induction H.
  - now constructor.
  - constructor; assumption.
Qed.

(** A walk that returned has a record for every located comment. *)
Lemma located_record (data : json) (out : list comment)
    (ancestors : list json) (node : json) :
  reddit_walk data = Done out ->
  located (comment_listing data) ancestors node ->
  exists c, record_of (node, length ancestors) = inr c /\ In c out.
Proof.
  intros Hwalk Hloc.
  assert (Hin : In (record_of (node, length ancestors))
                   (map (@inr exn comment) out)).
  { rewrite (reddit_walk_done _ _ Hwalk). unfold records. apply in_map.
    apply in_preorder_located. now exists ancestors. }
  apply in_map_iff in Hin. destruct Hin as [c [Hc Hin]]. now exists c.
Qed.

(** C1. For every valid payload of more than one element, the operation
    returns, without a message, as many records as there are nodes of kind
    [t1] in the tree under the comment listing (element 1); the stubs of
    the payload add nothing to either count. *)
Theorem reddit_record_count (session_get : string -> exn + response)
    (url : string) (data : json) :
  fetch_json session_get url = inr data ->
  valid_payload data = true ->
  exists comments,
    extract_reddit_comments session_get url = (comments, [])
    /\ length comments = list_sum (map count_t1 (comment_listing data)).
Proof.
  intros Hfetch Hvalid.
  destruct (valid_payload_done data Hvalid) as [out Hwalk].
  exists out. split.
  - now rewrite (extract_reddit_served _ _ _ Hfetch), Hwalk.
  - rewrite (length_records _ _ (reddit_walk_done _ _ Hwalk)).
    now apply valid_payload_count.
Qed.

(** C5. Every record the operation returns is the record of a comment
    node of the payload, and its [depth] is the number of comment nodes
    above that node: 0 for a node of the comment listing, and one more
    than the depth of the parent's record for a reply. *)
Theorem reddit_depth_counts_ancestors (session_get : string -> exn + response)
    (url : string) (data : json) (c : comment) :
  fetch_json session_get url = inr data ->
  In c (fst (extract_reddit_comments session_get url)) ->
  exists ancestors node,
    located (comment_listing data) ancestors node
    /\ record_of (node, length ancestors) = inr c
    /\ depth c = length ancestors
    /\ match ancestors with
       | [] => depth c = 0
       | parent :: above =>
           exists p,
             In p (fst (extract_reddit_comments session_get url))
             /\ record_of (parent, length above) = inr p
             /\ depth c = depth p + 1
       end.
Proof.
  intros Hfetch Hc.
  destruct (extract_reddit_in _ _ _ _ Hfetch Hc) as [out [Hwalk Hin]].
  destruct (proj1 (reddit_walk_records _ _ c Hwalk) Hin) as [anc [node [Hloc Hrec]]].
  pose proof (record_of_depth _ _ _ Hrec) as Hdepth.
  exists anc, node. repeat split; try assumption.
  destruct anc as [|parent above]; [exact Hdepth|].
  inversion Hloc as [|? ? ? Hparent _ _]; subst.
  destruct (located_record _ _ _ _ Hwalk Hparent) as [p [Hp Hpin]].
  exists p. repeat split.
  - now rewrite (extract_reddit_served _ _ _ Hfetch), Hwalk.
  - exact Hp.
  - rewrite (record_of_depth _ _ _ Hp), Hdepth. simpl. lia.
Qed.

(** C6. The sequence the operation returns is the pre-order listing of
    the comment tree: the records of [preorder], which lists a comment,
    then the listings of its replies one after the other in source order,
    before anything of the next sibling. *)
Theorem reddit_preorder (session_get : string -> exn + response)
    (url : string) (data : json) (out : list comment) :
  fetch_json session_get url = inr data ->
  extract_reddit_comments session_get url = (out, []) ->
  map inr out = records (flat_map (preorder 0) (comment_listing data)).
Proof.
  intros Hfetch Hout. apply reddit_walk_done.
  now apply extract_reddit_silent with (1 := Hfetch).
Qed.

(** C4, as the code has it. The [permalink] of a returned record is the
    base URL followed by the node's relative permalink when the node
    carries one, and the base URL alone when the node has no permalink. *)
Theorem reddit_permalink (session_get : string -> exn + response)
    (url : string) (data : json) (c : comment) :
  fetch_json session_get url = inr data ->
  In c (fst (extract_reddit_comments session_get url)) ->
  exists ancestors node d,
    located (comment_listing data) ancestors node
    /\ getitem node "data" = inr (JDict d)
    /\ record_of (node, length ancestors) = inr c
    /\ (forall p, assoc "permalink" d = Some (JStr p) ->
          permalink c = Some ("https://reddit.com" ++ p)%string)
    /\ (assoc "permalink" d = None ->
          permalink c = Some "https://reddit.com").
Proof.
  intros Hfetch Hc.
  destruct (extract_reddit_in _ _ _ _ Hfetch Hc) as [out [Hwalk Hin]].
  destruct (proj1 (reddit_walk_records _ _ c Hwalk) Hin) as [anc [node [Hloc Hrec]]].
  pose proof Hrec as Hrec'. unfold record_of in Hrec'; simpl in Hrec'.
  destruct (getitem node "data") as [e|data'] eqn:Hdata; [discriminate|].
  destruct data' as [| | | | | |d]; try discriminate.
  exists anc, node, d. repeat split; try assumption.
  - intros p Hp. unfold new_comment in Hrec'.
    destruct (fromtimestamp _); [discriminate|].
    injection Hrec' as <-. simpl. unfold dict_get. now rewrite Hp.
  - intros Hp. unfold new_comment in Hrec'.
    destruct (fromtimestamp _); [discriminate|].
    injection Hrec' as <-. simpl. unfold dict_get. now rewrite Hp.
Qed.

(** C7. Whatever goes wrong inside the operation ends in an empty result
    and one message that carries the exception: a transport error, an
    error status, a body that is not JSON, an exception of the tree walk.
    A payload that is not a list, or a list of fewer than two elements,
    gives the empty result without a message. The result is a value in
    every case. *)
Theorem reddit_failures_caught (session_get : string -> exn + response)
    (url : string) :
  (forall e,
     session_get (json_endpoint url) = inl e ->
     extract_reddit_comments session_get url
     = ([], [st_error "Error extracting Reddit comments: " e]))
  /\ (forall r e,
        session_get (json_endpoint url) = inr r ->
        raise_for_status r = inl e ->
        extract_reddit_comments session_get url
        = ([], [st_error "Error extracting Reddit comments: " e]))
  /\ (forall r e,
        session_get (json_endpoint url) = inr r ->
        raise_for_status r = inr tt ->
        json_body r = inl e ->
        extract_reddit_comments session_get url
        = ([], [st_error "Error extracting Reddit comments: " e]))
  /\ (forall data e partial,
        fetch_json session_get url = inr data ->
        reddit_walk data = Raised e partial ->
        extract_reddit_comments session_get url
        = ([], [st_error "Error extracting Reddit comments: " e]))
  /\ (forall data,
        fetch_json session_get url = inr data ->
        is_list data = false \/ data = JList [] ->
        extract_reddit_comments session_get url = ([], [])).
Proof.
  unfold extract_reddit_comments, reddit_try, fetch_json, fetch.
  repeat split.
  - intros e He. now rewrite He.
  - intros r e Hr He. now rewrite Hr, He.
  - intros r e Hr Hs He. now rewrite Hr, Hs, He.
  - intros data e partial Hdata Hwalk. now rewrite Hdata, Hwalk.
  - intros data Hdata Hshape. rewrite Hdata.
    destruct Hshape as [Hl| ->]; [|reflexivity].
    destruct data; try reflexivity; discriminate.
Qed.

(** C9. The operation is all-or-nothing. When the tree walk raises, the
    records built so far are dropped, whatever they are, and the result is
    empty; when it returns, the result is the complete pre-order listing. *)
Theorem reddit_all_or_nothing (session_get : string -> exn + response)
    (url : string) (data : json) :
  fetch_json session_get url = inr data ->
  match reddit_walk data with
  | Raised e partial =>
      extract_reddit_comments session_get url
      = ([], [st_error "Error extracting Reddit comments: " e])
  | Done out =>
      extract_reddit_comments session_get url = (out, [])
      /\ map inr out = records (flat_map (preorder 0) (comment_listing data))
  end.
Proof.
  intros Hfetch. rewrite (extract_reddit_served _ _ _ Hfetch).
  destruct (reddit_walk data) as [out|e partial] eqn:Hwalk; [|reflexivity].
  split; [reflexivity | now apply reddit_walk_done].
Qed.

(** C10. A node whose kind is not [t1] is neither emitted nor traversed:
    [parse_comment] returns at once and leaves [comments] as it was,
    whatever hangs under the node. So every record returned belongs to a
    node all of whose ancestors are comments. *)
Theorem reddit_stub_not_traversed :
  (forall node kind depth comments,
     getitem node "kind" = inr kind ->
     eq_str kind "t1" = false ->
     parse_comment node depth comments = Done comments)
  /\ (forall session_get url data c,
        fetch_json session_get url = inr data ->
        In c (fst (extract_reddit_comments session_get url)) ->
        exists ancestors node,
          located (comment_listing data) ancestors node
          /\ record_of (node, length ancestors) = inr c
          /\ Forall (fun n => is_comment n = true) (node :: ancestors)).
Proof.
  split.
  - intros node kind depth comments Hkind Hstub.
    now rewrite parse_comment_eq, Hkind, Hstub.
  - intros session_get url data c Hfetch Hc.
    destruct (extract_reddit_in _ _ _ _ Hfetch Hc) as [out [Hwalk Hin]].
    destruct (proj1 (reddit_walk_records _ _ c Hwalk) Hin) as [anc [node [Hloc Hrec]]].
    exists anc, node. repeat split; try assumption.
    now apply located_comments with (1 := Hloc).
Qed.
End RedditProperties.

(* ================================================================== *)
(** * The generic extractor: loops and truncation                      *)
(* ================================================================== *)

Lemma length_append (s1 s2 : string) :
  String.length (s1 ++ s2)%string = String.length s1 + String.length s2.
Proof. induction s1 as [|a s1 IH]; simpl; [reflexivity | now rewrite IH]. Qed.

Lemma length_slice_to (n : nat) (s : string) :
  String.length (slice_to n s) = Nat.min n (String.length s).
Proof.
  unfold slice_to. revert s.
  induction n as [|n IH]; intros [|a s]; simpl; try reflexivity.
  now rewrite IH.
Qed.

(** The truncated text has at most 500 characters and the marker. *)
Lemma truncate_bound (body : string) :
  String.length (truncate body) <= 500 + String.length "...".
Proof.
  unfold truncate. destruct (500 <? String.length body) eqn:Hlong.
  - rewrite length_append, length_slice_to. simpl String.length. lia.
  - apply Nat.ltb_ge in Hlong. simpl String.length. lia.
Qed.

(** A text of more than 500 characters is cut to 500 and marked. *)
Lemma truncate_long (body : string) :
  500 < String.length body -> String.length (truncate body) = 503.
Proof.
  intros Hlong. unfold truncate.
  apply Nat.ltb_lt in Hlong as Hb. rewrite Hb.
  rewrite length_append, length_slice_to. simpl String.length. lia.
Qed.

Lemma in_enumerate {A : Type} (l : list A) (i : nat) (x : A) :
  In (i, x) (enumerate l) -> i < length l /\ In x l.
Proof.
  unfold enumerate. intros H. split.
  - apply in_combine_l in H. apply in_seq in H. lia.
  - now apply in_combine_r in H.
Qed.

Section GenericProofs.
Context {lib : Library} (clock : nat -> datetime) (page : soup).

(** The inner loop appends one record per surviving item, each stamped
    with the next reading of the clock. *)
Lemma element_loop_spec (selector : string) (items : list (nat * element)) :
  forall comments reads,
    element_loop clock selector items comments reads
    = (comments
       ++ map (fun '(k, (i, e)) => generic_comment selector i (get_text e) (clock k))
              (combine (seq reads (length (filter survives items)))
                       (filter survives items)),
       reads + length (filter survives items)).
Proof.
  induction items as [|[i e] items IH]; intros comments reads; simpl.
  - now rewrite app_nil_r, Nat.add_0_r.
  - change (10 <? String.length (get_text e)) with (survives (i, e)).
    destruct (survives (i, e)).
    + rewrite IH. simpl. rewrite <- app_assoc. simpl.
      f_equal. lia.
    + apply IH.
Qed.

Lemma no_survivor (items : list (nat * element)) :
  existsb survives items = false <-> filter survives items = [].
Proof.
  induction items as [|x items IH]; simpl; [tauto|].
  destruct (survives x); simpl; [split; discriminate | exact IH].
Qed.

Lemma selector_loop_cons (selector : string) (selectors : list string)
    (comments : list comment) (reads : nat) :
  selector_loop clock page (selector :: selectors) comments reads
  = match select page selector with
    | [] => selector_loop clock page selectors comments reads
    | _ :: _ =>
        let '(comments', reads') :=
          element_loop clock selector (candidates page selector) comments reads in
        match comments' with
        | [] => selector_loop clock page selectors comments' reads'
        | _ :: _ => (comments', reads')
        end
    end.
Proof. reflexivity. Qed.

(** The loop over the selectors, started as the operation starts it,
    computes the first match of the specification. *)
Lemma selector_loop_spec (selectors : list string) :
  selector_loop clock page selectors [] 0
  = (first_match clock page selectors, length (first_match clock page selectors)).
Proof.
  induction selectors as [|selector selectors IH]; [reflexivity|].
  rewrite selector_loop_cons, element_loop_spec.
  unfold first_match, winning_selector in *.
  cbn [find app Nat.add].
  destruct (existsb survives (candidates page selector)) eqn:Hex.
  - assert (Hne : filter survives (candidates page selector) <> []).
    { intros Hf. apply no_survivor in Hf. congruence. }
    destruct (select page selector) as [|e0 es] eqn:Hsel.
    { exfalso. apply Hne. unfold candidates. now rewrite Hsel. }
    unfold records_of_selector, survivors, enumerate.
    destruct (filter survives (candidates page selector)) as [|s ss];
      [congruence|].
    cbn [length seq combine map].
    now rewrite length_map, length_combine, length_seq, Nat.min_id.
  - apply no_survivor in Hex. rewrite Hex. cbn [length seq combine map].
    destruct (select page selector); exact IH.
Qed.

(** Where the records of the first match come from. *)
Lemma in_first_match (selectors : list string) (c : comment) :
  In c (first_match clock page selectors) ->
  exists selector k i e,
    winning_selector page selectors = Some selector
    /\ In (i, e) (candidates page selector)
    /\ survives (i, e) = true
    /\ c = generic_comment selector i (get_text e) (clock k).
Proof.
  unfold first_match.
  destruct (winning_selector page selectors) as [selector|]; [|contradiction].
  unfold records_of_selector. intros Hc. apply in_map_iff in Hc.
  destruct Hc as [[k [i e]] [<- Hin]].
  apply in_enumerate in Hin. destruct Hin as [_ Hin].
  unfold survivors in Hin. apply filter_In in Hin. destruct Hin as [Hin Hs].
  now exists selector, k, i, e.
Qed.
End GenericProofs.

Lemma find_split {A : Type} (f : A -> bool) (l : list A) (x : A) :
  find f l = Some x ->
  exists before after,
    l = before ++ x :: after
    /\ (forall y, In y before -> f y = false)
    /\ f x = true.
Proof.
  induction l as [|a l IH]; simpl; [discriminate|].
  destruct (f a) eqn:Ha.
  - intros [= <-]. exists [], l. repeat split; [contradiction | exact Ha].
  - intros H. destruct (IH H) as [before [after [-> [Hb Hx]]]].
    exists (a :: before), after. repeat split; [|exact Hx].
    intros y [<-|Hy]; [exact Ha | now apply Hb].
Qed.

(* ================================================================== *)
(** * Properties of the generic extractor and of the dispatcher        *)
(* ================================================================== *)

Section GenericProperties.
Context {lib : Library}.

Lemma extract_generic_served (session_get : string -> exn + response)
    (clock : nat -> datetime) (url : string) (r : response) :
  fetch session_get url = inr r ->
  extract_generic_comments session_get clock url
  = (first_match clock (BeautifulSoup (content r)) comment_selectors, []).
Proof.
  intros H. unfold extract_generic_comments, generic_try.
  now rewrite H, selector_loop_spec.
Qed.

Lemma extract_generic_in (session_get : string -> exn + response)
    (clock : nat -> datetime) (url : string) (c : comment) :
  In c (fst (extract_generic_comments session_get clock url)) ->
  exists r, fetch session_get url = inr r
            /\ In c (first_match clock (BeautifulSoup (content r)) comment_selectors).
Proof.
  destruct (fetch session_get url) as [e|r] eqn:Hfetch.
  - unfold extract_generic_comments, generic_try. rewrite Hfetch. contradiction.
  - rewrite (extract_generic_served _ _ _ _ Hfetch). intros Hc. now exists r.
Qed.

(** C8. The generic extractor returns the records of the first selector
    of its list that has a surviving candidate, and nothing when there is
    none. A candidate is one of the first 50 matches of the selector; it
    survives when its text has more than 10 characters. The selectors
    before the winning one have no survivor, and every record carries the
    winning selector in [source]. *)
Theorem generic_first_match_wins (session_get : string -> exn + response)
    (clock : nat -> datetime) (url : string) (r : response) :
  fetch session_get url = inr r ->
  let page := BeautifulSoup (content r) in
  let out := fst (extract_generic_comments session_get clock url) in
  extract_generic_comments session_get clock url
  = (first_match clock page comment_selectors, [])
  /\ match winning_selector page comment_selectors with
     | None =>
         out = []
         /\ forall selector, In selector comment_selectors ->
                             survivors page selector = []
     | Some selector =>
         exists before after,
           comment_selectors = before ++ selector :: after
           /\ (forall earlier, In earlier before -> survivors page earlier = [])
           /\ survivors page selector <> []
           /\ out = records_of_selector clock page selector
           /\ length out = length (survivors page selector)
           /\ Forall (fun c => source c = Some selector) out
     end
  /\ (forall selector i e,
        In (i, e) (survivors page selector) ->
        In e (firstn 50 (select page selector))
        /\ i < 50
        /\ 10 < String.length (get_text e)).
Proof.
  intros Hfetch page out. subst out.
  rewrite (extract_generic_served _ _ _ _ Hfetch). fold page.
  split; [reflexivity|]. split.
  - cbn [fst]. unfold first_match.
    destruct (winning_selector page comment_selectors) as [selector|] eqn:Hwin.
    + unfold winning_selector in Hwin. apply find_split in Hwin.
      destruct Hwin as [before [after [Hsplit [Hbefore Hsel]]]].
      exists before, after. repeat split.
      * exact Hsplit.
      * intros earlier He. apply no_survivor. now apply Hbefore.
      * intros Hnone. apply no_survivor in Hnone. unfold survivors in Hnone.
        congruence.
      * unfold records_of_selector, enumerate.
        now rewrite length_map, length_combine, length_seq, Nat.min_id.
      * apply Forall_forall. intros c Hc. unfold records_of_selector in Hc.
        apply in_map_iff in Hc. destruct Hc as [[k [i e]] [<- _]]. reflexivity.
    + split; [reflexivity|]. intros selector Hs.
      apply no_survivor. unfold winning_selector in Hwin.
      now apply (find_none _ _ Hwin).
  - intros selector i e Hin. unfold survivors in Hin.
    apply filter_In in Hin. destruct Hin as [Hin Hs].
    apply in_enumerate in Hin. destruct Hin as [Hi He].
    rewrite length_firstn in Hi.
    repeat split; [exact He | lia | now apply Nat.ltb_lt].
Qed.

(** C2, as the code has it. The [text] of a record of the generic
    extractor has at most 500 characters and the three of the marker, and
    a text of 600 characters gives a [text] of exactly 503. The Reddit walk
    does not truncate: the [text] of its record is the body of the node,
    whole. *)
Theorem generic_text_bounded (session_get : string -> exn + response)
    (clock : nat -> datetime) (url : string) :
  (forall c, In c (fst (extract_generic_comments session_get clock url)) ->
     exists n, text_length c = Some n /\ n <= 500 + String.length "...")
  /\ (forall selector i body now,
        String.length body = 600 ->
        text_length (generic_comment selector i body now) = Some 503)
  /\ (forall d k c,
        new_comment d k = inr c ->
        text c = dict_get d "body" (JStr "[deleted]")).
Proof.
  repeat split.
  - intros c Hc. apply extract_generic_in in Hc. destruct Hc as [r [_ Hc]].
    apply in_first_match in Hc.
    destruct Hc as [selector [k [i [e [_ [_ [_ ->]]]]]]].
    eexists. split; [reflexivity|]. apply truncate_bound.
  - intros selector i body now Hlen. unfold text_length. simpl.
    f_equal. apply truncate_long. lia.
  - intros d k c. unfold new_comment.
    destruct (fromtimestamp _); [discriminate|]. now intros [= <-].
Qed.

(** C3, as the code has it. Two runs of [extract_comments] on the same
    URL against the same network return the same messages and records that
    agree, in the same order, on every field but [created_utc]. On the
    Reddit path the two results are equal. On the generic path
    [created_utc] is the reading of the clock at the moment of the run, so
    the results are equal when the two clocks read the same. *)
Theorem extraction_repeatable (session_get : string -> exn + response)
    (clock1 clock2 : nat -> datetime) (url : string) :
  let run1 := extract_comments session_get clock1 url in
  let run2 := extract_comments session_get clock2 url in
  map timeless (fst run1) = map timeless (fst run2)
  /\ snd run1 = snd run2
  /\ (is_reddit url = true -> run1 = run2)
  /\ ((forall k, clock1 k = clock2 k) -> run1 = run2).
Proof.
  unfold extract_comments.
  destruct (is_reddit url); [repeat split|].
  destruct (fetch session_get url) as [e|r] eqn:Hfetch.
  - unfold extract_generic_comments, generic_try. rewrite Hfetch.
    now repeat split.
  - rewrite !(extract_generic_served _ _ _ _ Hfetch). cbn [fst snd].
    unfold first_match.
    destruct (winning_selector _ comment_selectors) as [selector|];
      [|now repeat split].
    unfold records_of_selector. split; [|split; [reflexivity|split]].
    + rewrite !map_map. apply map_ext. now intros [k [i e]].
    + discriminate.
    + intros Hclock. f_equal. apply map_ext. intros [k [i e]].
      now rewrite Hclock.
Qed.
End GenericProperties.

(* ================================================================== *)
(** * The properties on the sample inputs                              *)
(* ================================================================== *)

Import Sample.

(** The example of the specification: one record, for alice. *)
Example extract_alice :
  extract_reddit_comments (reddit_serving (payload [alice])) reddit_url
  = ([alice_record], []).
Proof. reflexivity. Qed.

(** The sample thread has four comments; both stubs are skipped. *)
Lemma reddit_record_count_witness :
  fetch_json (reddit_serving thread) reddit_url = inr thread
  /\ valid_payload thread = true
  /\ exists comments,
       extract_reddit_comments (reddit_serving thread) reddit_url = (comments, [])
       /\ length comments = 4.
Proof.
  split; [reflexivity|]. split; [reflexivity|].
  exact (reddit_record_count (reddit_serving thread) reddit_url thread
           eq_refl eq_refl).
Defined.

(** The record of carol, a reply to a reply, has depth 2. *)
Lemma reddit_depth_counts_ancestors_witness :
  In carol_record (fst (extract_reddit_comments (reddit_serving thread) reddit_url))
  /\ exists ancestors node,
       located (comment_listing thread) ancestors node
       /\ record_of (node, length ancestors) = inr carol_record
       /\ depth carol_record = length ancestors
       /\ match ancestors with
          | [] => depth carol_record = 0
          | parent :: above =>
              exists p,
                In p (fst (extract_reddit_comments (reddit_serving thread) reddit_url))
                /\ record_of (parent, length above) = inr p
                /\ depth carol_record = depth p + 1
          end.
Proof.
  assert (Hin : In carol_record
                  (fst (extract_reddit_comments (reddit_serving thread) reddit_url))).
  { right; right; left. reflexivity. }
  split; [exact Hin|].
  exact (reddit_depth_counts_ancestors (reddit_serving thread) reddit_url thread
           carol_record eq_refl Hin).
Defined.

Lemma reddit_preorder_witness :
  let out := fst (extract_reddit_comments (reddit_serving thread) reddit_url) in
  extract_reddit_comments (reddit_serving thread) reddit_url = (out, [])
  /\ map inr out = records (flat_map (preorder 0) (comment_listing thread))
  /\ map depth out = [0; 1; 2; 0].
Proof.
  split; [reflexivity|]. split; [|reflexivity].
  exact (reddit_preorder (reddit_serving thread) reddit_url thread _
           eq_refl eq_refl).
Defined.

(** C4, as stated, fails: a comment without a permalink gets the base URL
    as its [permalink], which is not empty. *)
Lemma absent_permalink_is_base_url :
  extract_reddit_comments (reddit_serving (payload [unlinked])) reddit_url
  = ([unlinked_record], [])
  /\ (exists d, getitem unlinked "data" = inr (JDict d)
                /\ assoc "permalink" d = None)
  /\ permalink unlinked_record = Some "https://reddit.com"
  /\ permalink unlinked_record <> Some ""%string
  /\ permalink unlinked_record <> None.
Proof.
  split; [reflexivity|]. split; [eexists; split; reflexivity|].
  split; [reflexivity|]. split; discriminate.
Qed.

Lemma reddit_permalink_witness :
  In unlinked_record
     (fst (extract_reddit_comments (reddit_serving (payload [unlinked; alice]))
             reddit_url))
  /\ exists ancestors node d,
       located (comment_listing (payload [unlinked; alice])) ancestors node
       /\ getitem node "data" = inr (JDict d)
       /\ record_of (node, length ancestors) = inr unlinked_record
       /\ (forall p, assoc "permalink" d = Some (JStr p) ->
             permalink unlinked_record = Some ("https://reddit.com" ++ p)%string)
       /\ (assoc "permalink" d = None ->
             permalink unlinked_record = Some "https://reddit.com").
Proof.
  assert (Hin : In unlinked_record
                  (fst (extract_reddit_comments
                          (reddit_serving (payload [unlinked; alice])) reddit_url))).
  { left. reflexivity. }
  split; [exact Hin|].
  exact (reddit_permalink (reddit_serving (payload [unlinked; alice])) reddit_url
           (payload [unlinked; alice]) unlinked_record eq_refl Hin).
Defined.

(** A dead network, a 404, a body that is not JSON, a walk that raises,
    and an empty payload. *)
Lemma reddit_failures_caught_witness :
  extract_reddit_comments offline reddit_url
  = ([], [st_error "Error extracting Reddit comments: " RequestException])
  /\ extract_reddit_comments (serving reddit_endpoint not_found) reddit_url
     = ([], [st_error "Error extracting Reddit comments: " (HTTPError 404)])
  /\ extract_reddit_comments (serving reddit_endpoint not_json) reddit_url
     = ([], [st_error "Error extracting Reddit comments: " JSONDecodeError])
  /\ extract_reddit_comments (reddit_serving (payload [alice; kindless])) reddit_url
     = ([], [st_error "Error extracting Reddit comments: " (KeyError "kind")])
  /\ extract_reddit_comments (reddit_serving (JList [])) reddit_url = ([], [])
  /\ extract_reddit_comments (reddit_serving (JStr "oops")) reddit_url = ([], []).
Proof.
  repeat apply conj.
  - exact (proj1 (reddit_failures_caught offline reddit_url)
             RequestException eq_refl).
  - exact (proj1 (proj2 (reddit_failures_caught
                           (serving reddit_endpoint not_found) reddit_url))
             not_found (HTTPError 404) eq_refl eq_refl).
  - exact (proj1 (proj2 (proj2 (reddit_failures_caught
                                  (serving reddit_endpoint not_json) reddit_url)))
             not_json JSONDecodeError eq_refl eq_refl eq_refl).
  - exact (proj1 (proj2 (proj2 (proj2 (reddit_failures_caught
             (reddit_serving (payload [alice; kindless])) reddit_url))))
             (payload [alice; kindless]) (KeyError "kind") [alice_record]
             eq_refl eq_refl).
  - exact (proj2 (proj2 (proj2 (proj2 (reddit_failures_caught
             (reddit_serving (JList [])) reddit_url))))
             (JList []) eq_refl (or_intror eq_refl)).
  - exact (proj2 (proj2 (proj2 (proj2 (reddit_failures_caught
             (reddit_serving (JStr "oops")) reddit_url))))
             (JStr "oops") eq_refl (or_introl eq_refl)).
Defined.

(** The walk over [alice; kindless] has built the record of alice when
    the second node raises; the operation returns nothing. *)
Lemma reddit_all_or_nothing_witness :
  fetch_json (reddit_serving (payload [alice; kindless])) reddit_url
  = inr (payload [alice; kindless])
  /\ reddit_walk (payload [alice; kindless])
     = Raised (KeyError "kind") [alice_record]
  /\ extract_reddit_comments (reddit_serving (payload [alice; kindless])) reddit_url
     = ([], [st_error "Error extracting Reddit comments: " (KeyError "kind")]).
Proof.
  split; [reflexivity|]. split; [reflexivity|].
  exact (reddit_all_or_nothing (reddit_serving (payload [alice; kindless]))
           reddit_url (payload [alice; kindless]) eq_refl).
Defined.

(** A stub that carries a comment in a reply listing: the comment is in
    the payload and is not emitted. *)
Lemma reddit_stub_not_traversed_witness :
  getitem stub_with_reply "kind" = inr (JStr "more")
  /\ eq_str (JStr "more") "t1" = false
  /\ count_t1 stub_with_reply = 1
  /\ parse_comment stub_with_reply 0 [] = Done []
  /\ extract_reddit_comments (reddit_serving (payload [stub_with_reply])) reddit_url
     = ([], []).
Proof.
  split; [reflexivity|]. split; [reflexivity|]. split; [reflexivity|].
  split; [|reflexivity].
  exact (proj1 reddit_stub_not_traversed stub_with_reply (JStr "more") 0 []
           eq_refl eq_refl).
Defined.

(** On the sample page the short element is dropped, the two long
    [.comment] elements win, and [.reply] is never tried. *)
Lemma generic_first_match_wins_witness :
  fetch blog blog_url = inr (ok_page page)
  /\ extract_generic_comments blog noon blog_url
     = (first_match noon page comment_selectors, [])
  /\ winning_selector page comment_selectors = Some ".comment"%string
  /\ map source (fst (extract_generic_comments blog noon blog_url))
     = [Some ".comment"%string; Some ".comment"%string]
  /\ map id (fst (extract_generic_comments blog noon blog_url))
     = [JStr "generic_1"; JStr "generic_2"].
Proof.
  split; [reflexivity|]. split; [|repeat split; reflexivity].
  exact (proj1 (generic_first_match_wins blog noon blog_url (ok_page page) eq_refl)).
Defined.

(** C2, as stated, fails on the Reddit path: a body of 600 characters
    gives a [text] of 600 characters, more than 500 and the marker. *)
Lemma reddit_text_not_truncated :
  exists c,
    extract_reddit_comments (reddit_serving (payload [long_comment])) reddit_url
    = ([c], [])
    /\ text_length c = Some 600
    /\ ~ (600 <= 500 + String.length "...").
Proof.
  eexists. split; [reflexivity|]. split; [reflexivity|].
  simpl String.length. lia.
Qed.

(** On the sample page the element of 600 characters gives a [text] of
    503. *)
Lemma generic_text_bounded_witness :
  let c := generic_comment ".comment" 2 (replicate 600 "y") 43200%Z in
  In c (fst (extract_generic_comments blog noon blog_url))
  /\ String.length (replicate 600 "y") = 600
  /\ (exists n, text_length c = Some n /\ n <= 500 + String.length "...")
  /\ text_length c = Some 503.
Proof.
  intros c.
  assert (Hin : In c (fst (extract_generic_comments blog noon blog_url))).
  { right; left. reflexivity. }
  split; [exact Hin|]. split; [reflexivity|]. split.
  - exact (proj1 (generic_text_bounded blog noon blog_url) c Hin).
  - exact (proj1 (proj2 (generic_text_bounded blog noon blog_url))
             ".comment"%string 2 (replicate 600 "y") 43200%Z eq_refl).
Defined.

(** C3, as stated, fails on the generic path: the same page extracted at
    midnight and at noon gives records that differ in [created_utc]. *)
Lemma generic_runs_differ :
  extract_comments blog midnight blog_url <> extract_comments blog noon blog_url
  /\ map created_utc (fst (extract_comments blog midnight blog_url)) = [0%Z; 0%Z]
  /\ map created_utc (fst (extract_comments blog noon blog_url))
     = [43200%Z; 43200%Z].
Proof.
  split; [|split; reflexivity].
  intros H. apply (f_equal (fun run => map created_utc (fst run))) in H.
  vm_compute in H. discriminate.
Qed.

(** The Reddit thread extracted at midnight and at noon gives the same
    result; the page gives the same records up to [created_utc]. *)
Lemma extraction_repeatable_witness :
  is_reddit reddit_url = true
  /\ extract_comments (reddit_serving thread) midnight reddit_url
     = extract_comments (reddit_serving thread) noon reddit_url
  /\ map timeless (fst (extract_comments blog midnight blog_url))
     = map timeless (fst (extract_comments blog noon blog_url))
  /\ extract_comments blog noon blog_url = extract_comments blog noon blog_url.
Proof.
  split; [reflexivity|]. split; [|split].
  - exact (proj1 (proj2 (proj2
             (extraction_repeatable (reddit_serving thread) midnight noon reddit_url)))
             eq_refl).
  - exact (proj1 (extraction_repeatable blog midnight noon blog_url)).
  - exact (proj2 (proj2 (proj2
             (extraction_repeatable blog noon noon blog_url)))
             (fun k => eq_refl)).
Defined.

(* ================================================================== *)
(** * The JSON endpoint                                                *)
(* ================================================================== *)

Lemma append_assoc (a b c : string) :
  ((a ++ b) ++ c)%string = (a ++ (b ++ c))%string.
Proof. induction a as [|x a IH]; simpl; [reflexivity | now rewrite IH]. Qed.

Lemma append_empty_r (a : string) : (a ++ "")%string = a.
Proof. induction a as [|x a IH]; simpl; [reflexivity | now rewrite IH]. Qed.

Lemma substring_all (s : string) : substring 0 (String.length s) s = s.
Proof. induction s as [|x s IH]; simpl; [reflexivity | now rewrite IH]. Qed.

Lemma substring_skip (a b : string) (n : nat) :
  substring (String.length a) n (a ++ b) = substring 0 n b.
Proof. induction a as [|x a IH]; simpl; [reflexivity | exact IH]. Qed.

(** A string is what comes before a position and what comes after it. *)
Lemma substring_split (s : string) (m : nat) :
  m <= String.length s ->
  s = (substring 0 m s ++ substring m (String.length s - m) s)%string.
Proof.
  revert m. induction s as [|x s IH]; intros m Hm; simpl in *.
  - assert (m = 0) as -> by lia. reflexivity.
  - destruct m as [|m]; simpl.
    + now rewrite substring_all.
    + f_equal. apply IH. lia.
Qed.

Lemma endswith_append (a suffix : string) : endswith (a ++ suffix) suffix = true.
Proof.
  unfold endswith. rewrite length_append.
  replace (String.length a + String.length suffix - String.length suffix)
    with (String.length a) by lia.
  rewrite substring_skip, substring_all, String.eqb_refl.
  apply andb_true_iff. split; [apply Nat.leb_le; lia | reflexivity].
Qed.

Lemma endswith_true (s suffix : string) :
  endswith s suffix = true -> exists a, s = (a ++ suffix)%string.
Proof.
  unfold endswith. intros H. apply andb_true_iff in H. destruct H as [Hle Heq].
  apply Nat.leb_le in Hle. apply String.eqb_eq in Heq.
  exists (substring 0 (String.length s - String.length suffix) s).
  assert (Hm : String.length s - String.length suffix <= String.length s) by lia.
  pose proof (substring_split s _ Hm) as Hs.
  replace (String.length s - (String.length s - String.length suffix))
    with (String.length suffix) in Hs by lia.
  now rewrite Heq in Hs.
Qed.

Lemma append_last (a b : string) (x y : ascii) :
  (a ++ String x "")%string = (b ++ String y "")%string -> x = y.
Proof.
  revert b. induction a as [|u a IH]; intros [|v b]; simpl.
  - now intros [= ->].
  - intros [= _ H]. destruct b; discriminate.
  - intros [= _ H]. destruct a; discriminate.
  - intros [= _ H]. now apply IH with b.
Qed.

(** What is left of [rstrip] does not end with the stripped character. *)
Lemma rstrip_stripped (c : ascii) (s t : string) :
  rstrip c s <> (t ++ String c "")%string.
Proof.
  revert t. induction s as [|a s IH]; intros t; simpl.
  - destruct t; discriminate.
  - destruct (rstrip c s) as [|b r] eqn:Hr.
    + destruct (Ascii.eqb a c) eqn:Hac.
      * destruct t; discriminate.
      * apply Ascii.eqb_neq in Hac.
        destruct t as [|u t]; simpl.
        -- intros [= H]. contradiction.
        -- intros [= _ H]. destruct t; discriminate.
    + destruct t as [|u t]; simpl.
      * discriminate.
      * intros [= _ H]. now apply (IH t).
Qed.

Lemma rstrip_append (c : ascii) (s : string) :
  rstrip c (s ++ String c "") = rstrip c s.
Proof.
  induction s as [|a s IH]; simpl.
  - now rewrite Ascii.eqb_refl.
  - now rewrite IH.
Qed.

Lemma json_endpoint_ends (url : string) :
  endswith (json_endpoint url) ".json" = true.
Proof.
  unfold json_endpoint. destruct (endswith url ".json") eqn:He; simpl.
  - exact He.
  - apply endswith_append.
Qed.

(** X1. The URL that [extract_reddit_comments] requests always ends with
    [.json]; when the suffix had to be added, what stands before it does
    not end with a slash. *)
Theorem json_endpoint_suffix (url : string) :
  endswith (json_endpoint url) ".json" = true
  /\ (json_endpoint url = url
      \/ exists base,
           json_endpoint url = (base ++ ".json")%string
           /\ endswith base "/" = false).
Proof.
  unfold json_endpoint. destruct (endswith url ".json") eqn:He; simpl.
  - split; [exact He | now left].
  - split; [apply endswith_append|]. right.
    exists (rstrip "/" url). split; [reflexivity|].
    destruct (endswith (rstrip "/" url) "/") eqn:Hs; [|reflexivity].
    apply endswith_true in Hs. destruct Hs as [t Ht].
    now apply rstrip_stripped in Ht.
Qed.

(** X2. Normalising the URL twice is normalising it once. *)
Theorem json_endpoint_idempotent (url : string) :
  json_endpoint (json_endpoint url) = json_endpoint url.
Proof.
  unfold json_endpoint at 1.
  now rewrite (json_endpoint_ends url).
Qed.

(** X3. A trailing slash is dropped before the suffix is added, so a URL
    and the same URL with a slash are requested at the same endpoint,
    unless the URL already ends with [.json]: then the slash makes the
    suffix appear twice. *)
Theorem json_endpoint_trailing_slash (url : string) :
  json_endpoint (url ++ "/") = (rstrip "/" url ++ ".json")%string
  /\ (endswith url ".json" = false ->
      json_endpoint (url ++ "/") = json_endpoint url)
  /\ (endswith url ".json" = true ->
      json_endpoint (url ++ "/") = (url ++ ".json")%string).
Proof.
  assert (Hslash : endswith (url ++ "/") ".json" = false).
  { destruct (endswith (url ++ "/") ".json") eqn:He; [|reflexivity].
    apply endswith_true in He. destruct He as [a Ha].
    change ".json"%string with (".jso" ++ "n")%string in Ha.
    rewrite <- append_assoc in Ha. apply append_last in Ha. discriminate. }
  assert (Heq : json_endpoint (url ++ "/") = (rstrip "/" url ++ ".json")%string).
  { unfold json_endpoint. rewrite Hslash. simpl negb. cbv iota.
    now rewrite rstrip_append. }
  split; [exact Heq|]. split.
  - intros He. rewrite Heq. unfold json_endpoint. now rewrite He.
  - intros He. rewrite Heq. f_equal.
    apply endswith_true in He. destruct He as [a ->].
    change ".json"%string with (".jso" ++ "n")%string.
    rewrite <- append_assoc.
    generalize (a ++ ".jso")%string. intros b.
    induction b as [|x b IH]; simpl; [reflexivity|].
    rewrite IH. destruct b; reflexivity.
Qed.

Lemma json_endpoint_trailing_slash_witness :
  endswith "https://www.reddit.com/r/x/comments/abc" ".json" = false
  /\ json_endpoint "https://www.reddit.com/r/x/comments/abc/"
     = json_endpoint "https://www.reddit.com/r/x/comments/abc"
  /\ endswith "https://www.reddit.com/r/x.json" ".json" = true
  /\ json_endpoint "https://www.reddit.com/r/x.json/"
     = "https://www.reddit.com/r/x.json.json"%string.
Proof.
  split; [reflexivity|]. split; [|split; [reflexivity|]].
  - exact (proj1 (proj2 (json_endpoint_trailing_slash
                           "https://www.reddit.com/r/x/comments/abc")) eq_refl).
  - exact (proj2 (proj2 (json_endpoint_trailing_slash
                           "https://www.reddit.com/r/x.json")) eq_refl).
Defined.

(* ================================================================== *)
(** * What a walk has built, returned or raised                        *)
(* ================================================================== *)

Section BuiltProofs.
Context {lib : Library}.

Lemma for_in_not_list_final (children : json) (depth : nat) (comments : list comment) :
  is_list children = false ->
  final (for_in children (fun reply => parse_comment reply depth) comments)
  = comments.
Proof.
  intros Hl. destruct children; try discriminate; try reflexivity; simpl.
  - destruct s; reflexivity.
  - destruct m as [|[k v] m]; reflexivity.
Qed.

Lemma for_each_built (depth : nat) (l : list json) :
  (forall x, In x l -> forall comments,
      exists new rest,
        final (parse_comment x depth comments) = comments ++ new
        /\ records (preorder depth x) = map inr new ++ rest) ->
  forall comments,
    exists new rest,
      final (for_each (fun reply => parse_comment reply depth) l comments)
      = comments ++ new
      /\ records (flat_map (preorder depth) l) = map inr new ++ rest.
Proof.
  induction l as [|x l IH]; intros Hl comments; simpl.
  - exists [], []. now rewrite app_nil_r.
  - rewrite records_app.
    destruct (parse_comment x depth comments) as [mid|e out] eqn:Hx.
    + destruct (parse_comment_done x _ _ _ Hx) as [n1 [-> Hn1]].
      destruct (IH (fun y Hy => Hl y (or_intror Hy)) (comments ++ n1))
        as [n2 [rest [Hfinal Hrec]]].
      exists (n1 ++ n2), rest. split.
      * now rewrite Hfinal, app_assoc.
      * now rewrite <- Hn1, Hrec, map_app, app_assoc.
    + destruct (Hl x (or_introl eq_refl) comments) as [n1 [rest [Hfinal Hrec]]].
      rewrite Hx in Hfinal. simpl in Hfinal.
      exists n1, (rest ++ records (flat_map (preorder depth) l)). split.
      * exact Hfinal.
      * now rewrite Hrec, app_assoc.
Qed.

(** Whether it returns or raises, [parse_comment] leaves the list it was
    given extended by an initial segment of the pre-order records of its
    node. *)
Lemma parse_comment_built (node : json) :
  forall depth comments,
    exists new rest,
      final (parse_comment node depth comments) = comments ++ new
      /\ records (preorder depth node) = map inr new ++ rest.
Proof.
  induction node as [node IH] using json_size_ind.
  intros depth comments.
  assert (Hnone : forall r, final r = comments ->
            exists new rest,
              final r = comments ++ new
              /\ records (preorder depth node) = map inr new ++ rest).
  { intros r Hr. exists [], (records (preorder depth node)).
    now rewrite Hr, app_nil_r. }
  rewrite parse_comment_eq.
  destruct (getitem node "kind") as [e|kind] eqn:Hkind; [now apply Hnone|].
  destruct (eq_str kind "t1") eqn:Hk; [|now apply Hnone].
  destruct (getitem node "data") as [e|data] eqn:Hdata; [now apply Hnone|].
  destruct data as [| | | | | |d]; try now apply Hnone.
  destruct (new_comment d depth) as [e|c] eqn:Hc; [now apply Hnone|].
  assert (Hcomment : is_comment node = true).
  { unfold is_comment. now rewrite Hkind. }
  assert (Hrec : record_of (node, depth) = inr c).
  { unfold record_of; simpl. now rewrite Hdata. }
  rewrite preorder_eq, Hcomment. simpl records. rewrite Hrec.
  fold (records (flat_map (preorder (S depth)) (replies_of node))).
  assert (Hone : forall r, final r = comments ++ [c] ->
            exists new rest,
              final r = comments ++ new
              /\ inr c :: records (flat_map (preorder (S depth)) (replies_of node))
                 = map inr new ++ rest).
  { intros r Hr. exists [c]. eexists. split; [exact Hr | reflexivity]. }
  destruct (assoc "replies" d) as [replies|] eqn:Hreplies; [|now apply Hone].
  destruct (truthy replies); [|now apply Hone].
  destruct (is_dict replies); [|now apply Hone].
  destruct (getitem replies "data") as [e|listing] eqn:Hlisting; [now apply Hone|].
  destruct (getitem listing "children") as [e|children] eqn:Hchildren;
    [now apply Hone|].
  destruct (is_list children) eqn:Hlist.
  2:{ apply Hone. now apply for_in_not_list_final. }
  destruct children as [| | | | |l|]; try discriminate. simpl for_in.
  assert (Hl : replies_of node = l).
  { rewrite replies_of_spec, Hdata. simpl getitem at 1.
    now rewrite Hreplies, Hlisting, Hchildren. }
  rewrite Hl. replace (depth + 1) with (S depth) by lia.
  destruct (for_each_built (S depth) l) with (comments := comments ++ [c])
    as [new [rest [Hfinal Hnew]]].
  { intros x Hx. apply IH. apply item_size in Hx.
    apply getitem_size in Hdata, Hlisting, Hchildren.
    apply assoc_size in Hreplies. lia. }
  exists (c :: new), rest. split.
  - now rewrite Hfinal, <- app_assoc.
  - simpl. now rewrite Hnew.
Qed.

(** X4. [parse_comment] only appends: whether it returns or raises, the
    list it was given is still there, unchanged, at the front of the list
    it leaves. *)
Theorem parse_comment_only_appends (node : json) (depth : nat)
    (comments : list comment) :
  exists new, final (parse_comment node depth comments) = comments ++ new.
Proof.
  destruct (parse_comment_built node depth comments) as [new [_ [H _]]].
  now exists new.
Qed.

(** X5. When the tree walk raises, what it has built up to that point is
    an initial segment of the pre-order listing of the payload: the
    records are those of the comments before the failure, in order,
    without a gap. *)
Theorem raised_walk_is_prefix (data : json) (e : exn) (partial : list comment) :
  reddit_walk data = Raised e partial ->
  exists rest,
    records (flat_map (preorder 0) (comment_listing data))
    = map inr partial ++ rest.
Proof.
  assert (Hnone : forall (all : list (exn + comment)) e',
            Raised e' [] = Raised e partial ->
            exists rest, all = map inr partial ++ rest).
  { intros all e' [= _ <-]. now exists all. }
  unfold reddit_walk.
  destruct data as [| | | | |l|]; try discriminate.
  destruct l as [|post l]; [discriminate|].
  destruct l as [|listing l]; [discriminate|].
  unfold comment_listing.
  destruct (getitem listing "data") as [e'|listing_data]; [now apply Hnone|].
  destruct (getitem listing_data "children") as [e'|children]; [now apply Hnone|].
  destruct (is_list children) eqn:Hlist.
  - destruct children as [| | | | |nodes|]; try discriminate. simpl for_in.
    intros Hwalk.
    destruct (for_each_built 0 nodes (fun x _ => parse_comment_built x 0) [])
      as [new [rest [Hfinal Hrec]]].
    rewrite Hwalk in Hfinal. simpl in Hfinal. subst partial.
    now exists rest.
  - intros Hwalk.
    pose proof (for_in_not_list_final children 0 [] Hlist) as Hfinal.
    rewrite Hwalk in Hfinal. simpl in Hfinal. subst partial. now eexists.
Qed.
End BuiltProofs.

(** The walk over [broken_replies; alice] raises after the first record;
    the record of alice is what is left of the listing. *)
Lemma raised_walk_is_prefix_witness :
  exists partial,
    reddit_walk (payload [broken_replies; alice]) = Raised (KeyError "data") partial
    /\ length partial = 1
    /\ exists rest,
         records (flat_map (preorder 0)
                    (comment_listing (payload [broken_replies; alice])))
         = map inr partial ++ rest.
Proof.
  eexists. split; [reflexivity|]. split; [reflexivity|].
  exact (raised_walk_is_prefix (payload [broken_replies; alice]) _ _ eq_refl).
Defined.

(* ================================================================== *)
(** * The depths along the returned sequence                           *)
(* ================================================================== *)

Lemma gentle_app (a b : nat) (t later : list nat) :
  gentle a t ->
  Forall (fun k => b <= k) t ->
  b <= a + 1 ->
  (forall q, b <= q + 1 -> gentle q later) ->
  gentle a (t ++ later).
Proof.
  revert a. induction t as [|d t IH]; intros a Ht Hge Hb Hlater; simpl.
  - now apply Hlater.
  - destruct Ht as [Hd Ht]. inversion Hge as [|? ? Hbd Hge']; subst.
    split; [exact Hd|]. apply IH; try assumption. lia.
Qed.

(** The depths of a forest listed from depth [d]: none is below [d], and
    after any depth from [d - 1] on they go down gently. *)
Lemma forest_depths (d : nat) (l : list json) :
  (forall x, In x l ->
     Forall (fun k => d <= k) (map snd (preorder d x))
     /\ forall q, d <= q + 1 -> gentle q (map snd (preorder d x))) ->
  Forall (fun k => d <= k) (map snd (flat_map (preorder d) l))
  /\ forall q, d <= q + 1 -> gentle q (map snd (flat_map (preorder d) l)).
Proof.
  induction l as [|x l IH]; intros Hl; simpl.
  - split; [constructor | intros; exact I].
  - destruct (Hl x (or_introl eq_refl)) as [Hge Hgentle].
    destruct (IH (fun y Hy => Hl y (or_intror Hy))) as [Hge' Hgentle'].
    rewrite map_app. split.
    + apply Forall_app. now split.
    + intros q Hq. apply gentle_app with (b := d); auto.
Qed.

Lemma preorder_depths (x : json) :
  forall d,
    Forall (fun k => d <= k) (map snd (preorder d x))
    /\ forall q, d <= q + 1 -> gentle q (map snd (preorder d x)).
Proof.
  induction x as [x IH] using json_size_ind. intros d.
  rewrite preorder_eq. destruct (is_comment x).
  2:{ split; [constructor | intros; exact I]. }
  destruct (forest_depths (S d) (replies_of x)) as [Hge Hgentle].
  { intros y Hy. apply IH. now apply replies_of_size. }
  simpl. split.
  - constructor; [lia|]. apply Forall_impl with (2 := Hge). intros k Hk. lia.
  - intros q Hq. split; [exact Hq|]. apply Hgentle. lia.
Qed.

Lemma forest_first_depth (d : nat) (l : list json) :
  match map snd (flat_map (preorder d) l) with
  | [] => True
  | first :: _ => first = d
  end.
Proof.
  induction l as [|x l IH]; simpl; [exact I|].
  rewrite map_app, preorder_eq. destruct (is_comment x); simpl; [reflexivity|].
  exact IH.
Qed.

Section DepthProofs.
Context {lib : Library}.

Lemma records_depths (entries : list (json * nat)) :
  forall out, map inr out = records entries -> map depth out = map snd entries.
Proof.
  induction entries as [|[node k] entries IH]; intros [|c out]; simpl;
    try discriminate; [reflexivity|].
  intros [= Hc Hrest]. symmetry in Hc. apply record_of_depth in Hc.
  rewrite Hc. f_equal. now apply IH.
Qed.

(** X6. Along the sequence that [extract_reddit_comments] returns the
    first record has depth 0 and no record is more than one level deeper
    than the record before it. *)
Theorem reddit_depths_gentle (session_get : string -> exn + response)
    (url : string) :
  match map depth (fst (extract_reddit_comments session_get url)) with
  | [] => True
  | first :: rest => first = 0 /\ gentle first rest
  end.
Proof.
  unfold extract_reddit_comments, reddit_try.
  destruct (fetch_json session_get url) as [e|data]; [exact I|].
  destruct (reddit_walk data) as [out|e partial] eqn:Hwalk; [|exact I].
  simpl fst. apply reddit_walk_done in Hwalk. apply records_depths in Hwalk.
  rewrite Hwalk.
  pose proof (forest_first_depth 0 (comment_listing data)) as Hfirst.
  destruct (forest_depths 0 (comment_listing data)) as [_ Hgentle].
  { intros x _. apply preorder_depths. }
  destruct (map snd (flat_map (preorder 0) (comment_listing data)))
    as [|first rest]; [exact I|].
  split; [exact Hfirst|]. exact (proj2 (Hgentle 0 (Nat.le_0_l _))).
Qed.
End DepthProofs.

(* ================================================================== *)
(** * The dispatcher and the network                                   *)
(* ================================================================== *)

Lemma prefix_append (sub rest : string) : String.prefix sub (sub ++ rest) = true.
Proof.
  induction sub as [|a sub IH]; simpl; [destruct rest; reflexivity|].
  destruct (ascii_dec a a); [exact IH | contradiction].
Qed.

Lemma prefix_true (sub s : string) :
  String.prefix sub s = true -> exists rest, s = (sub ++ rest)%string.
Proof.
  revert s. induction sub as [|a sub IH]; intros s; simpl.
  - intros _. now exists s.
  - destruct s as [|b s]; simpl; [discriminate|].
    destruct (ascii_dec a b) as [<-|]; intros H; [|discriminate H].
    destruct (IH s H) as [rest ->]. now exists rest.
Qed.

Lemma contains_eq (sub s : string) :
  contains sub s
  = String.prefix sub s
    || match s with
       | EmptyString => false
       | String _ s' => contains sub s'
       end.
Proof. destruct s; reflexivity. Qed.

(** [contains] is the substring test. *)
Lemma contains_spec (sub s : string) :
  contains sub s = true <-> exists a b, s = (a ++ sub ++ b)%string.
Proof.
  split.
  - induction s as [|x s IH]; rewrite contains_eq; intros H;
      apply orb_true_iff in H; destruct H as [H|H]; try discriminate.
    + apply prefix_true in H. destruct H as [rest H]. now exists ""%string, rest.
    + apply prefix_true in H. destruct H as [rest H]. now exists ""%string, rest.
    + destruct (IH H) as [a [b ->]]. now exists (String x a), b.
  - intros [a [b ->]]. induction a as [|x a IH]; cbn [append];
      rewrite contains_eq; apply orb_true_iff.
    + left. apply prefix_append.
    + right. exact IH.
Qed.

Section DispatchProofs.
Context {lib : Library}.

(** X7. The dispatcher sends a URL to the Reddit extractor exactly when
    the lower-cased host contains [reddit.com] somewhere, and to the
    generic extractor otherwise. *)
Theorem dispatch_by_substring (session_get : string -> exn + response)
    (clock : nat -> datetime) (url : string) :
  ((exists a b, lower (netloc url) = (a ++ "reddit.com" ++ b)%string) ->
   extract_comments session_get clock url
   = extract_reddit_comments session_get url)
  /\ ((forall a b, lower (netloc url) <> (a ++ "reddit.com" ++ b)%string) ->
      extract_comments session_get clock url
      = extract_generic_comments session_get clock url).
Proof.
  unfold extract_comments, is_reddit. split.
  - intros H. apply contains_spec in H. now rewrite H.
  - intros H. destruct (contains "reddit.com" (lower (netloc url))) eqn:Hc;
      [|reflexivity].
    apply contains_spec in Hc. destruct Hc as [a [b Hab]]. now destruct (H a b).
Qed.

(** X8. An extraction makes one request: its result depends on the
    network only through the response at the JSON endpoint of the URL on
    the Reddit path, and at the URL itself on the generic path. *)
Theorem one_request (get1 get2 : string -> exn + response)
    (clock : nat -> datetime) (url : string) :
  (is_reddit url = true -> get1 (json_endpoint url) = get2 (json_endpoint url)) ->
  (is_reddit url = false -> get1 url = get2 url) ->
  extract_comments get1 clock url = extract_comments get2 clock url.
Proof.
  intros Hreddit Hgeneric. unfold extract_comments.
  destruct (is_reddit url).
  - unfold extract_reddit_comments, reddit_try, fetch_json, fetch.
    now rewrite (Hreddit eq_refl).
  - unfold extract_generic_comments, generic_try, fetch.
    now rewrite (Hgeneric eq_refl).
Qed.

End DispatchProofs.

(** A host that merely contains the token goes to the Reddit extractor;
    the blog goes to the generic one. *)
Lemma dispatch_by_substring_witness :
  extract_comments offline noon "https://notreddit.com.example.org/x"
  = extract_reddit_comments offline "https://notreddit.com.example.org/x"
  /\ extract_comments blog noon blog_url
     = extract_generic_comments blog noon blog_url.
Proof.
  split.
  - apply (proj1 (dispatch_by_substring offline noon
                    "https://notreddit.com.example.org/x")).
    exists "not"%string, ".example.org"%string. reflexivity.
  - apply (proj2 (dispatch_by_substring blog noon blog_url)).
    intros a b H.
    assert (Hc : contains "reddit.com" (lower (netloc blog_url)) = true).
    { apply contains_spec. now exists a, b. }
    vm_compute in Hc. discriminate.
Defined.

(** Two networks that agree at the endpoint and differ elsewhere. *)
Lemma one_request_witness :
  extract_comments (reddit_serving thread) noon reddit_url
  = extract_comments
      (fun u => if String.eqb u reddit_endpoint
                then inr (ok_json thread) else inr not_found)
      noon reddit_url.
Proof.
  apply one_request.
  - intros _. reflexivity.
  - intros H. vm_compute in H. discriminate.
Defined.


(* ================================================================== *)
(** * More on the generic extractor                                    *)
(* ================================================================== *)



Lemma combine_seq_fst {A : Type} (l : list A) (start : nat) :
  map fst (combine (seq start (length l)) l) = seq start (length l).
Proof.
  revert start. induction l as [|x l IH]; intros start; simpl; [reflexivity|].
  now rewrite IH.
Qed.




Section GenericMore.
Context {lib : Library}.



(** Either nothing was extracted or the records are those of a selector. *)
Lemma extract_generic_cases (session_get : string -> exn + response)
    (clock : nat -> datetime) (url : string) :
  fst (extract_generic_comments session_get clock url) = []
  \/ exists page selector,
       fst (extract_generic_comments session_get clock url)
       = records_of_selector clock page selector.
Proof.
  destruct (fetch session_get url) as [e|r] eqn:Hfetch.
  - left. unfold extract_generic_comments, generic_try. now rewrite Hfetch.
  - rewrite (extract_generic_served _ _ _ _ Hfetch). cbn [fst].
    unfold first_match.
    destruct (winning_selector _ comment_selectors) as [selector|];
      [right | now left].
    now exists (BeautifulSoup (content r)), selector.
Qed.


(** X11. Elements after the fiftieth match of a selector play no part:
    two pages whose selectors agree on their first 50 matches give the
    same result, also when none of the 50 survives and a later one
    would. *)
Theorem generic_cap_hides_the_rest (get1 get2 : string -> exn + response)
    (clock : nat -> datetime) (url : string) (r1 r2 : response) :
  fetch get1 url = inr r1 ->
  fetch get2 url = inr r2 ->
  (forall selector, In selector comment_selectors ->
     firstn 50 (select (BeautifulSoup (content r1)) selector)
     = firstn 50 (select (BeautifulSoup (content r2)) selector)) ->
  extract_generic_comments get1 clock url
  = extract_generic_comments get2 clock url.
Proof.
  intros H1 H2 Hsame.
  rewrite (extract_generic_served _ _ _ _ H1), (extract_generic_served _ _ _ _ H2).
  f_equal. revert Hsame.
  generalize (BeautifulSoup (content r1)) (BeautifulSoup (content r2)).
  intros p1 p2. unfold first_match, winning_selector.
  induction comment_selectors as [|selector selectors IH]; intros Hsame;
    [reflexivity|].
  assert (Hc : candidates p1 selector = candidates p2 selector).
  { unfold candidates. now rewrite (Hsame selector (or_introl eq_refl)). }
  cbn [find]. rewrite Hc.
  destruct (existsb survives (candidates p2 selector)).
  - unfold records_of_selector, survivors. now rewrite Hc.
  - apply IH. intros s Hs. apply Hsame. now right.
Qed.

(** X12. The records of the generic extractor carry consecutive readings
    of the clock, in the order of the records: the first reading of the
    run for the first record, the second for the second, and so on. *)
Theorem generic_timestamps (session_get : string -> exn + response)
    (clock : nat -> datetime) (url : string) :
  let out := fst (extract_generic_comments session_get clock url) in
  map created_utc out = map clock (seq 0 (length out)).
Proof.
  intros out. subst out.
  destruct (extract_generic_cases session_get clock url)
    as [->|[page [selector ->]]]; [reflexivity|].
  unfold records_of_selector, enumerate.
  rewrite length_map, length_combine, length_seq, Nat.min_id.
  rewrite <- (combine_seq_fst (survivors page selector) 0) at 2.
  rewrite !map_map. apply map_ext. now intros [k [i e]].
Qed.

(** X13. Every record of the generic extractor has the author
    ['Unknown'], no score, depth 0 and no permalink; so on the page no
    author is counted and no comment is scored. *)
Theorem generic_records_anonymous (session_get : string -> exn + response)
    (clock : nat -> datetime) (url : string) :
  let out := fst (extract_generic_comments session_get clock url) in
  Forall (fun c => author c = JStr "Unknown" /\ score c = JNull
                   /\ depth c = 0 /\ permalink c = None) out
  /\ named_authors out = []
  /\ scored_comments out = [].
Proof.
  intros out.
  assert (Hall : Forall (fun c => author c = JStr "Unknown" /\ score c = JNull
                                  /\ depth c = 0 /\ permalink c = None) out).
  { subst out.
    destruct (extract_generic_cases session_get clock url)
      as [->|[page [selector ->]]]; [constructor|].
    apply Forall_forall. intros c Hc. unfold records_of_selector in Hc.
    apply in_map_iff in Hc. destruct Hc as [[k [i e]] [<- _]]. now repeat split. }
  split; [exact Hall|]. clear -Hall. unfold named_authors, scored_comments.
  induction Hall as [|c l [Ha [Hs _]] _ [IHa IHs]]; [now split|].
  simpl. rewrite Ha, Hs. simpl. now split.
Qed.
End GenericMore.

(** The fifty-first [.comment] element is long enough, and is not seen:
    the crowded page and the page without it both give the [.reply]
    record. *)
Lemma generic_cap_hides_the_rest_witness :
  fetch (serving blog_url (ok_page crowded_page)) blog_url
  = inr (ok_page crowded_page)
  /\ fetch (serving blog_url (ok_page cut_page)) blog_url = inr (ok_page cut_page)
  /\ extract_generic_comments (serving blog_url (ok_page crowded_page)) noon blog_url
     = extract_generic_comments (serving blog_url (ok_page cut_page)) noon blog_url
  /\ map source
       (fst (extract_generic_comments (serving blog_url (ok_page crowded_page))
               noon blog_url))
     = [Some ".reply"%string].
Proof.
  split; [reflexivity|]. split; [reflexivity|]. split; [|reflexivity].
  apply (generic_cap_hides_the_rest (lib := library)
           (serving blog_url (ok_page crowded_page))
           (serving blog_url (ok_page cut_page)) noon blog_url
           (ok_page crowded_page) (ok_page cut_page) eq_refl eq_refl).
  intros selector Hs. unfold comment_selectors in Hs. simpl in Hs.
  repeat (destruct Hs as [<-|Hs]; [vm_compute; reflexivity|]). contradiction.
Defined.

(* ================================================================== *)
(** * The table of the page                                            *)
(* ================================================================== *)

Lemma slice_to_append (n : nat) (a b : string) :
  n <= String.length a -> slice_to n (a ++ b) = slice_to n a.
Proof.
  unfold slice_to. revert a.
  induction n as [|n IH]; intros [|x a] H; simpl in *; try reflexivity.
  - destruct b; reflexivity.
  - lia.
  - f_equal. apply IH. lia.
Qed.

Lemma slice_to_slice_to (n m : nat) (s : string) :
  n <= m -> slice_to n (slice_to m s) = slice_to n s.
Proof.
  unfold slice_to. revert m s.
  induction n as [|n IH]; intros [|m] [|x s] H; simpl; try reflexivity; try lia.
  f_equal. apply IH. lia.
Qed.

(** The cell of a string: the string itself up to 100 characters, its
    first 100 characters and the marker beyond. *)
Lemma table_comment_string (s : string) :
  exists cell,
    table_comment (JStr s) = inr (JStr cell)
    /\ String.length cell <= 100 + String.length "..."
    /\ (String.length s <= 100 -> cell = s)
    /\ (100 < String.length s -> cell = (slice_to 100 s ++ "...")%string).
Proof.
  unfold table_comment. simpl py_len. cbv iota.
  destruct (100 <? String.length s) eqn:Hlong.
  - apply Nat.ltb_lt in Hlong. eexists. split; [reflexivity|]. repeat split.
    + rewrite length_append, length_slice_to. simpl String.length. lia.
    + lia.
  - apply Nat.ltb_ge in Hlong. exists s. repeat split.
    + simpl String.length. lia.
    + lia.
Qed.

Lemma in_firstn {A : Type} (n : nat) (l : list A) (x : A) :
  In x (firstn n l) -> In x l.
Proof.
  revert l. induction n as [|n IH]; intros [|y l]; simpl; try contradiction.
  intros [->|H]; [now left | right; now apply IH].
Qed.

Section TableProofs.
Context {lib : Library} (strftime : datetime -> string).

Lemma df_data_strings (display : list comment) :
  (forall c, In c display -> exists s, text c = JStr s) ->
  exists rows,
    df_data strftime display = inr rows
    /\ length rows = length display
    /\ map Author rows = map author display
    /\ map Depth rows = map depth display
    /\ Forall (fun r => exists cell,
                 Comment r = JStr cell
                 /\ String.length cell <= 100 + String.length "...") rows.
Proof.
  induction display as [|c display IH]; intros Hall; simpl.
  - exists []. repeat split. constructor.
  - destruct (Hall c (or_introl eq_refl)) as [s Hs].
    destruct (table_comment_string s) as [cell [Hcell [Hlen _]]].
    destruct (IH (fun c' Hc' => Hall c' (or_intror Hc')))
      as [rows [Hrows [Hn [Ha [Hd Hcells]]]]].
    unfold table_row. rewrite Hs, Hcell, Hrows.
    eexists. split; [reflexivity|]. simpl. repeat split.
    + now rewrite Hn.
    + now rewrite Ha.
    + now rewrite Hd.
    + constructor; [|exact Hcells]. now exists cell.
Qed.

(** X14. For records whose [text] is a string the table is built without
    an exception: one row per displayed comment, in order, as many as the
    slider allows and the list has, and every [Comment] cell has at most
    100 characters and the marker. *)
Theorem table_of_strings (comments : list comment) (max_comments : nat) :
  (forall c, In c comments -> exists s, text c = JStr s) ->
  exists rows,
    df_data strftime (display_comments comments max_comments) = inr rows
    /\ length rows = Nat.min max_comments (length comments)
    /\ map Author rows = map author (display_comments comments max_comments)
    /\ map Depth rows = map depth (display_comments comments max_comments)
    /\ Forall (fun r => exists cell,
                 Comment r = JStr cell
                 /\ String.length cell <= 100 + String.length "...") rows.
Proof.
  intros Hall.
  destruct (df_data_strings (display_comments comments max_comments))
    as [rows [Hrows [Hn H]]].
  { intros c Hc. apply Hall. now apply in_firstn with max_comments. }
  exists rows. split; [exact Hrows|]. split; [|exact H].
  rewrite Hn. unfold display_comments. apply length_firstn.
Qed.

(** X15. The cut at 500 characters that the generic extractor makes does
    not show in the table: the cell of the stored text is the cell of the
    text of the element. *)
Theorem table_hides_truncation (body : string) :
  table_comment (JStr (truncate body)) = table_comment (JStr body).
Proof.
  unfold truncate. destruct (500 <? String.length body) eqn:Hlong;
    [|reflexivity].
  apply Nat.ltb_lt in Hlong.
  destruct (table_comment_string body) as [cell [-> [_ [_ Hcell]]]].
  destruct (table_comment_string (slice_to 500 body ++ "...")%string)
    as [cell' [-> [_ [_ Hcell']]]].
  rewrite Hcell by lia. rewrite Hcell'.
  - rewrite slice_to_append, slice_to_slice_to; [reflexivity | lia |].
    rewrite length_slice_to. lia.
  - rewrite length_append, length_slice_to. simpl String.length. lia.
Qed.

Lemma total_text_length_raises (comments : list comment) (c : comment) (e : exn) :
  In c comments -> py_len (text c) = inl e ->
  exists e', total_text_length comments = inl e'.
Proof.
  induction comments as [|c' comments IH]; simpl; [contradiction|].
  intros [->|Hin] He.
  - rewrite He. now eexists.
  - destruct (py_len (text c')); [now eexists|].
    destruct (IH Hin He) as [e' ->]. now eexists.
Qed.

Lemma df_data_raises (display : list comment) (c : comment) (e : exn) :
  In c display -> py_len (text c) = inl e ->
  exists e', df_data strftime display = inl e'.
Proof.
  induction display as [|c' display IH]; simpl; [contradiction|].
  intros [->|Hin] He.
  - unfold table_row, table_comment. rewrite He. now eexists.
  - destruct (table_row strftime c'); [now eexists|].
    destruct (IH Hin He) as [e' ->]. now eexists.
Qed.

(** X16. A record whose [text] has no length (a number, a boolean or
    null body passes through [parse_comment] as it is) makes the page
    raise after the extraction has returned: the sum for the average
    length raises when such a record is anywhere in the list, and so does
    the table when it is among the displayed ones. *)
Theorem unsized_text_breaks_page (comments : list comment) (c : comment) :
  In c comments ->
  py_len (text c) = inl TypeError ->
  (exists e, total_text_length comments = inl e)
  /\ forall max_comments,
       In c (display_comments comments max_comments) ->
       exists e, df_data strftime (display_comments comments max_comments) = inl e.
Proof.
  intros Hin He. split.
  - now apply total_text_length_raises with c TypeError.
  - intros max_comments Hd. now apply df_data_raises with c TypeError.
Qed.
End TableProofs.

(** The table of the sample page: two rows, the second cut to 103. *)
Lemma table_of_strings_witness :
  let out := fst (extract_generic_comments blog noon blog_url) in
  (forall c, In c out -> exists s, text c = JStr s)
  /\ exists rows,
       df_data (lib := library) date_string (display_comments out 50) = inr rows
       /\ length rows = Nat.min 50 (length out)
       /\ map Author rows = map author (display_comments out 50)
       /\ map Depth rows = map depth (display_comments out 50)
       /\ Forall (fun r => exists cell,
                    Comment r = JStr cell
                    /\ String.length cell <= 100 + String.length "...") rows.
Proof.
  intros out.
  assert (Hall : forall c, In c out -> exists s, text c = JStr s).
  { intros c [<-|[<-|[]]]; eexists; reflexivity. }
  split; [exact Hall|].
  exact (table_of_strings (lib := library) date_string out 50 Hall).
Defined.

(** A comment whose body is the number 42 is extracted, and the page
    raises on its record. *)
Lemma unsized_text_breaks_page_witness :
  extract_reddit_comments (reddit_serving (payload [numbered])) reddit_url
  = ([numbered_record], [])
  /\ py_len (text numbered_record) = inl TypeError
  /\ (exists e, total_text_length [numbered_record] = inl e)
  /\ exists e, df_data (lib := library) date_string (display_comments [numbered_record] 50) = inl e.
Proof.
  split; [reflexivity|]. split; [reflexivity|].
  destruct (unsized_text_breaks_page (lib := library) date_string [numbered_record] numbered_record
              (or_introl eq_refl) eq_refl) as [Hsum Htable].
  split; [exact Hsum|].
  exact (Htable 50 (or_introl eq_refl)).
Defined.

(* ================================================================== *)
(** * Status codes and reply fields at the edges                       *)
(* ================================================================== *)

Section EdgeProofs.
Context {lib : Library}.

(** X17. Only the statuses from 400 to 599 are errors. A response with
    any other status, a 204 or a redirect that was not followed as much
    as a 200, is taken as the page and parsed. *)
Theorem http_status_window (session_get : string -> exn + response)
    (clock : nat -> datetime) (url : string) (r : response) :
  session_get url = inr r ->
  (400 <= status_code r < 600 ->
   fetch session_get url = inl (HTTPError (status_code r))
   /\ extract_generic_comments session_get clock url
      = ([], [st_error "Error extracting generic comments: "
                (HTTPError (status_code r))]))
  /\ (status_code r < 400 \/ 600 <= status_code r ->
      fetch session_get url = inr r
      /\ extract_generic_comments session_get clock url
         = (first_match clock (BeautifulSoup (content r)) comment_selectors, [])).
Proof.
  intros Hget.
  assert (Hfetch : fetch session_get url
                   = if (400 <=? status_code r) && (status_code r <? 600)
                     then inl (HTTPError (status_code r)) else inr r).
  { unfold fetch, raise_for_status. rewrite Hget.
    now destruct ((400 <=? status_code r) && (status_code r <? 600)). }
  split.
  - intros [Hlo Hhi].
    apply Nat.leb_le in Hlo. apply Nat.ltb_lt in Hhi.
    rewrite Hlo, Hhi in Hfetch. simpl in Hfetch. split; [exact Hfetch|].
    unfold extract_generic_comments, generic_try. now rewrite Hfetch.
  - intros Hout.
    assert (Hb : (400 <=? status_code r) && (status_code r <? 600) = false).
    { apply andb_false_iff. destruct Hout as [H|H].
      - left. apply Nat.leb_gt. lia.
      - right. apply Nat.ltb_ge. lia. }
    rewrite Hb in Hfetch. split; [exact Hfetch|].
    now apply extract_generic_served.
Qed.

(** X18. What [parse_comment] does with the [replies] of a comment. A
    missing [replies], and one that is empty or not a dict (the empty
    string that Reddit sends for a comment without replies, a list, a
    number), is skipped: the comment is emitted as a leaf. A non-empty
    dict without a [data] key raises [KeyError] after the comment has
    been appended. *)
Theorem replies_at_the_edges (node : json) (d : list (string * json))
    (depth : nat) (comments : list comment) (c : comment) :
  getitem node "kind" = inr (JStr "t1") ->
  getitem node "data" = inr (JDict d) ->
  new_comment d depth = inr c ->
  (assoc "replies" d = None ->
   parse_comment node depth comments = Done (comments ++ [c]))
  /\ (forall replies,
        assoc "replies" d = Some replies ->
        truthy replies && is_dict replies = false ->
        parse_comment node depth comments = Done (comments ++ [c]))
  /\ (forall replies,
        assoc "replies" d = Some replies ->
        truthy replies && is_dict replies = true ->
        getitem replies "data" = inl (KeyError "data") ->
        parse_comment node depth comments
        = Raised (KeyError "data") (comments ++ [c])).
Proof.
  intros Hkind Hdata Hc.
  rewrite parse_comment_eq, Hkind, Hdata, Hc. simpl eq_str. cbv iota.
  repeat split.
  - intros Hnone. now rewrite Hnone.
  - intros replies Hr Hskip. rewrite Hr.
    destruct (truthy replies); [|reflexivity].
    destruct (is_dict replies); [discriminate | reflexivity].
  - intros replies Hr Hdict Hmissing. rewrite Hr.
    apply andb_true_iff in Hdict. destruct Hdict as [-> ->].
    now rewrite Hmissing.
Qed.
End EdgeProofs.

(** A 302 with the sample page as its body is parsed like a 200. *)
Lemma http_status_window_witness :
  serving blog_url moved blog_url = inr moved
  /\ status_code moved < 400
  /\ fetch (serving blog_url moved) blog_url = inr moved
  /\ extract_generic_comments (serving blog_url moved) noon blog_url
     = (first_match noon page comment_selectors, [])
  /\ fetch (serving blog_url not_found) blog_url = inl (HTTPError 404).
Proof.
  assert (Hlow : status_code moved < 400) by (cbv [moved status_code]; lia).
  assert (Herr : 400 <= status_code not_found < 600)
    by (cbv [not_found status_code]; lia).
  split; [reflexivity|]. split; [exact Hlow|].
  destruct (http_status_window (lib := library) (serving blog_url moved) noon
              blog_url moved eq_refl) as [_ Hok].
  destruct (Hok (or_introl Hlow)) as [Hfetch Hpage].
  split; [exact Hfetch|]. split; [exact Hpage|].
  destruct (http_status_window (lib := library) (serving blog_url not_found) noon
              blog_url not_found eq_refl) as [Hbad _].
  exact (proj1 (Hbad Herr)).
Defined.

(** carol has the empty string as [replies] and is a leaf; the reply
    listing of [broken_replies] has no [data]. *)
Lemma replies_at_the_edges_witness :
  parse_comment carol 2 [] = Done [carol_record]
  /\ exists c,
       parse_comment broken_replies 0 [] = Raised (KeyError "data") [c].
Proof.
  split.
  - exact (proj1 (proj2 (replies_at_the_edges (lib := library) carol _ 2 []
                           carol_record eq_refl eq_refl eq_refl))
             (JStr "") eq_refl eq_refl).
  - eexists.
    exact (proj2 (proj2 (replies_at_the_edges (lib := library) broken_replies _ 0 []
                           _ eq_refl eq_refl eq_refl))
             (JDict [("kind", JStr "Listing")]) eq_refl eq_refl eq_refl).
Defined.
